(** * The LogDNA callback plugin for Ansible: a model of [logdna.py]

    The development follows [lib/ansible/plugins/callback/logdna.py].
    Python values are a tagged tree ([PyVal]); a [dict] is an association
    list in insertion order; a call that can raise returns an [outcome]. *)

From Stdlib Require Import List String Ascii Bool ZArith Lia PrimFloat.
From Stdlib Require Uint63.
Import ListNotations.
Local Open Scope string_scope.
Local Open Scope list_scope.

Set Warnings "-register-all".

(** ** Python values *)

(** The values that travel through the plugin: task fields, module results
    and the metadata built from them are trees of scalars, lists, tuples
    and dicts.  A tuple is kept apart from a list: [isinstance] tells them
    apart, and so does the pruning. *)
Inductive PyVal : Type :=
| PNone
| PBool (b : bool)
| PInt (z : Z)
| PFloat (f : float)
| PStr (s : string)
| PList (l : list PyVal)
| PTuple (t : list PyVal)
| PDict (d : list (string * PyVal)).

Definition PyDict : Type := list (string * PyVal).

(** Python's truth value: [None], [False], zero, and empty strings, lists,
    tuples and dicts are false; everything else is true. *)
Definition truthy (v : PyVal) : bool :=
  match v with
  | PNone => false
  | PBool b => b
  | PInt z => negb (Z.eqb z 0)
  | PFloat f => negb (PrimFloat.eqb f 0%float)
  | PStr s => negb (String.eqb s "")
  | PList l => match l with [] => false | _ :: _ => true end
  | PTuple t => match t with [] => false | _ :: _ => true end
  | PDict d => match d with [] => false | _ :: _ => true end
  end.

(** An induction principle that reaches inside lists, tuples and dicts. *)
Section PyVal_nested_ind.
Variable P : PyVal -> Prop.
Hypothesis HNone : P PNone.
Hypothesis HBool : forall b, P (PBool b).
Hypothesis HInt : forall z, P (PInt z).
Hypothesis HFloat : forall f, P (PFloat f).
Hypothesis HStr : forall s, P (PStr s).
Hypothesis HList : forall l, Forall P l -> P (PList l).
Hypothesis HTuple : forall t, Forall P t -> P (PTuple t).
Hypothesis HDict : forall d, Forall (fun kv => P (snd kv)) d -> P (PDict d).

Fixpoint PyVal_nested_ind (v : PyVal) : P v :=
  match v with
  | PNone => HNone
  | PBool b => HBool b
  | PInt z => HInt z
  | PFloat f => HFloat f
  | PStr s => HStr s
  | PList l =>
      HList l
        ((fix go (l : list PyVal) : Forall P l :=
            match l with
            | [] => Forall_nil _
            | x :: r => Forall_cons _ (PyVal_nested_ind x) (go r)
            end) l)
  | PTuple t =>
      HTuple t
        ((fix go (t : list PyVal) : Forall P t :=
            match t with
            | [] => Forall_nil _
            | x :: r => Forall_cons _ (PyVal_nested_ind x) (go r)
            end) t)
  | PDict d =>
      HDict d
        ((fix go (d : PyDict) : Forall (fun kv => P (snd kv)) d :=
            match d with
            | [] => Forall_nil _
            | (k, x) :: r =>
                Forall_cons (k, x) (PyVal_nested_ind x) (go r)
            end) d)
  end.
End PyVal_nested_ind.

(** ** [delete_empty_values] *)

(** [isinstance(d, (dict, list))] fails: [d] is returned as it is, a
    tuple with all it holds like a scalar.  A list keeps the pruned elements
    that are true; a dict keeps the items whose pruned value is true. *)
Fixpoint delete_empty_values (d : PyVal) : PyVal :=
  match d with
  | PList l => PList (filter truthy (map delete_empty_values l))
  | PDict kvs =>
      PDict (filter (fun kv => truthy (snd kv))
               (map (fun kv => let '(k, v) := kv in
                               (k, delete_empty_values v)) kvs))
  | _ => d
  end.

(** The values the invariant of the metadata names: the empty string, the
    empty mapping, the empty sequence and null. *)
Definition is_empty_value (v : PyVal) : bool :=
  match v with
  | PNone => true
  | PStr s => String.eqb s ""
  | PList [] => true
  | PTuple [] => true
  | PDict [] => true
  | _ => false
  end.

(** The values the pruning drops beyond the empty ones. *)
Definition is_false_or_zero (v : PyVal) : bool :=
  match v with
  | PBool b => negb b
  | PInt z => Z.eqb z 0
  | PFloat f => PrimFloat.eqb f 0%float
  | _ => false
  end.

(** [all_inside q v]: every list element, every tuple element and every
    dict value of [v], at any depth, satisfies [q]. *)
Fixpoint all_inside (q : PyVal -> bool) (v : PyVal) : bool :=
  match v with
  | PList l => forallb (fun x => q x && all_inside q x) l
  | PTuple t => forallb (fun x => q x && all_inside q x) t
  | PDict d => forallb (fun kv => let '(_, x) := kv in q x && all_inside q x) d
  | _ => true
  end.

Definition no_empty_inside : PyVal -> bool :=
  all_inside (fun x => negb (is_empty_value x)).


(** [all_outside_tuples q v]: every list element and every dict value of
    [v] that is reached through lists and dicts alone satisfies [q]; what a
    tuple holds is not looked at. *)
Fixpoint all_outside_tuples (q : PyVal -> bool) (v : PyVal) : bool :=
  match v with
  | PList l => forallb (fun x => q x && all_outside_tuples q x) l
  | PDict d =>
      forallb (fun kv => let '(_, x) := kv in q x && all_outside_tuples q x) d
  | _ => true
  end.

Definition no_empty_outside_tuples : PyVal -> bool :=
  all_outside_tuples (fun x => negb (is_empty_value x)).


(** [tuple_free v]: [v] is no tuple and holds none, at any depth. *)
Fixpoint tuple_free (v : PyVal) : bool :=
  match v with
  | PTuple _ => false
  | PList l => forallb tuple_free l
  | PDict d => forallb (fun kv => let '(_, x) := kv in tuple_free x) d
  | _ => true
  end.

(** ** Dict operations *)

(** [d.get(k)]: the value bound to [k], if any. *)
Fixpoint dict_lookup (d : PyDict) (k : string) : option PyVal :=
  match d with
  | [] => None
  | (k', v) :: r => if String.eqb k' k then Some v else dict_lookup r k
  end.

(** [d[k] = v]: rebinds [k] in place, or appends the new item. *)
Fixpoint dict_set (d : PyDict) (k : string) (v : PyVal) : PyDict :=
  match d with
  | [] => [(k, v)]
  | (k', v') :: r =>
      if String.eqb k' k then (k', v) :: r else (k', v') :: dict_set r k v
  end.

(** [d.get(k, None)]. *)
Definition dict_get (d : PyDict) (k : string) : PyVal :=
  match dict_lookup d k with Some v => v | None => PNone end.

Definition dict_keys (d : PyDict) : list string := map fst d.

(** ** Exceptions *)

(** The exceptions the plugin can let escape before the request is made. *)
Inductive PyErr : Type :=
| KeyError (key : string)
| IndexError
| AttributeError
| ValueError (msg : string)
| InvalidFormat          (* the [Exception] raised by [SafeFormat.get_field] *)
| BuiltinError (msg : string).

Inductive outcome (A : Type) : Type :=
| Ok (a : A)
| Err (e : PyErr).
Arguments Ok {A} a.
Arguments Err {A} e.

Definition bind {A B : Type} (r : outcome A) (k : A -> outcome B) : outcome B :=
  match r with
  | Ok a => k a
  | Err e => Err e
  end.

Declare Scope py_scope.
Notation "x <- c1 ;; c2" := (bind c1 (fun x => c2))
  (at level 61, c1 at next level, right associativity) : py_scope.
Local Open Scope py_scope.


(** [v.get(k)] on an arbitrary value: only a dict has [get]. *)
Definition py_get (v : PyVal) (k : string) : outcome PyVal :=
  match v with
  | PDict d => Ok (dict_get d k)
  | _ => Err AttributeError
  end.

(** [d[k]]. *)
Definition dict_item (d : PyDict) (k : string) : outcome PyVal :=
  match dict_lookup d k with
  | Some v => Ok v
  | None => Err (KeyError k)
  end.

(** ** Strings *)

Definition mem_char (c : ascii) (s : string) : bool :=
  existsb (Ascii.eqb c) (list_ascii_of_string s).

Definition is_digit (c : ascii) : bool :=
  let n := nat_of_ascii c in (48 <=? n)%nat && (n <=? 57)%nat.

(** [s.isdigit()]: not empty and digits only. *)
Definition isdigit (s : string) : bool :=
  negb (String.eqb s "") && forallb is_digit (list_ascii_of_string s).

Definition lower_char (c : ascii) : ascii :=
  let n := nat_of_ascii c in
  if (65 <=? n)%nat && (n <=? 90)%nat then ascii_of_nat (n + 32) else c.

(** [s.lower()] on ASCII text. *)
Fixpoint lower (s : string) : string :=
  match s with
  | EmptyString => EmptyString
  | String c r => String (lower_char c) (lower r)
  end.

(** [s.split(',')]: the fields between the commas, empty ones included. *)
Fixpoint split_comma_aux (cur : string) (s : string) : list string :=
  match s with
  | EmptyString => [cur]
  | String c r =>
      if Ascii.eqb c "," then cur :: split_comma_aux "" r
      else split_comma_aux (cur ++ String c "") r
  end.

Definition split_comma (s : string) : list string := split_comma_aux "" s.

(** [s.split(sep)[0]]: what comes before the first occurrence of [sep]. *)
Fixpoint before_first (sep : string) (s : string) : string :=
  if String.prefix sep s then ""
  else match s with
       | EmptyString => ""
       | String c r => String c (before_first sep r)
       end.

Definition is_space (c : ascii) : bool :=
  let n := nat_of_ascii c in
  ((9 <=? n)%nat && (n <=? 13)%nat) || ((28 <=? n)%nat && (n <=? 32)%nat).

Fixpoint lstrip (s : string) : string :=
  match s with
  | EmptyString => EmptyString
  | String c r => if is_space c then lstrip r else s
  end.

Fixpoint rstrip (s : string) : string :=
  match s with
  | EmptyString => EmptyString
  | String c r =>
      match rstrip r with
      | EmptyString => if is_space c then EmptyString else String c EmptyString
      | r' => String c r'
      end
  end.

(** [s.strip()]. *)
Definition strip (s : string) : string := rstrip (lstrip s).

(** Decimal and hexadecimal digits of a natural number, most significant
    first. *)
Definition digit_char (d : N) : ascii :=
  if (d <? 10)%N then ascii_of_N (48 + d) else ascii_of_N (87 + d).

Fixpoint digits_aux (base : N) (fuel : nat) (n : N) (acc : string) : string :=
  match fuel with
  | O => acc
  | S fuel' =>
      let acc' := String (digit_char (n mod base)) acc in
      if (n <? base)%N then acc' else digits_aux base fuel' (n / base) acc'
  end.

Definition digits (base : N) (n : N) : string :=
  digits_aux base (S (N.to_nat (N.log2 n))) n "".

Fixpoint zeros (k : nat) : string :=
  match k with O => "" | S k' => String "0" (zeros k') end.

(** Left padding with zeros up to [width], as ["%0<width>x"] and ["%0<width>d"]
    do; a longer string is left alone. *)
Definition zero_pad (width : nat) (s : string) : string :=
  zeros (width - String.length s) ++ s.

(** ** Host identity *)

(** [get_local_hostname]: [gethostname()] up to the first [.local]. *)
Definition get_local_hostname (gethostname : string) : string :=
  before_first ".local" gethostname.

(** [get_hwaddr], on the value [getnode()] returned.  [len(mac) / 2] is a true
    division, truncated by [int]; [range] counts 0, 1, 2, ... and every index
    is used as it is for the slice [mac[index:index + 2]]. *)
Definition get_hwaddr (getnode : N) : string :=
  let mac := zero_pad 12 (digits 16 getnode) in
  String.concat ":"
    (map (fun index => substring index 2 mac)
         (seq 0 (Nat.div (String.length mac) 2))).

(** The address the documentation describes: the six bytes of the node
    identifier, most significant first, two lower-case hex digits each. *)
Definition octet (getnode : N) (i : nat) : N :=
  ((getnode / 256 ^ N.of_nat (5 - i)) mod 256)%N.

Definition hwaddr_octets (getnode : N) : string :=
  String.concat ":"
    (map (fun i => zero_pad 2 (digits 16 (octet getnode i))) (seq 0 6)).

(** ** Clock *)

Record datetime : Type := {
  year : N; month : N; day : N; hour : N; minute : N; second : N;
  microsecond : N
}.

(** [strftime('%Y-%m-%dT%H:%M:%SZ')]. *)
Definition strftime_iso (t : datetime) : string :=
  zero_pad 4 (digits 10 (year t)) ++ "-" ++
  zero_pad 2 (digits 10 (month t)) ++ "-" ++
  zero_pad 2 (digits 10 (day t)) ++ "T" ++
  zero_pad 2 (digits 10 (hour t)) ++ ":" ++
  zero_pad 2 (digits 10 (minute t)) ++ ":" ++
  zero_pad 2 (digits 10 (second t)) ++ "Z".

(** ** [string.Formatter]: the template parser

    [SafeFormat] inherits [parse], [vformat], [convert_field] and
    [format_field] from the standard [Formatter]; only [get_field] is
    overridden.  The parser follows the markup iterator of the
    interpreter: literal text up to a brace, [{{] and [}}] as escaped
    braces, then a replacement field [{name!c:spec}]. *)

Record Field : Type := {
  field_name : string;
  format_spec : string;
  conversion : option ascii
}.

(** What the parser yields: [(literal_text, field)], the field being [None]
    when no replacement field follows the literal text. *)
Definition Item : Type := (string * option Field)%type.

Definition cons_name (c : ascii) (r : outcome (option (string * ascii * string)))
  : outcome (option (string * ascii * string)) :=
  match r with
  | Ok (Some (name, t, rest)) => Ok (Some (String c name, t, rest))
  | other => other
  end.

(** The field name runs up to [}], [:] or [!]; a [{] in it is an error, and
    what stands between [[] and []] is skipped unread.  The answer is the
    name, the terminator and the text after it, or [None] at the end of the
    string. *)
Fixpoint scan_name (in_bracket : bool) (s : string)
  : outcome (option (string * ascii * string)) :=
  match s with
  | EmptyString => Ok None
  | String c r =>
      if in_bracket then
        cons_name c (scan_name (negb (Ascii.eqb c "]")) r)
      else if Ascii.eqb c "{" then
        Err (ValueError "unexpected '{' in field name")
      else if Ascii.eqb c "[" then
        cons_name c (scan_name true r)
      else if Ascii.eqb c "}" || Ascii.eqb c ":" || Ascii.eqb c "!" then
        Ok (Some (EmptyString, c, r))
      else
        cons_name c (scan_name false r)
  end.

Definition cons_spec (c : ascii) (r : option (string * string))
  : option (string * string) :=
  match r with
  | Some (spec, rest) => Some (String c spec, rest)
  | None => None
  end.

(** The format spec runs up to the [}] that closes the field; [open] counts
    the braces opened inside the spec. *)
Fixpoint scan_spec (open : nat) (s : string) : option (string * string) :=
  match s with
  | EmptyString => None
  | String c r =>
      if Ascii.eqb c "{" then cons_spec c (scan_spec (S open) r)
      else if Ascii.eqb c "}" then
        match open with
        | O => Some (EmptyString, r)
        | S n => cons_spec c (scan_spec n r)
        end
      else cons_spec c (scan_spec open r)
  end.

Definition parse_spec (name : string) (conv : option ascii) (s : string)
  : outcome (Field * string) :=
  match scan_spec 0 s with
  | Some (spec, rest) =>
      Ok ({| field_name := name; format_spec := spec; conversion := conv |},
          rest)
  | None => Err (ValueError "unmatched '{' in format spec")
  end.

(** [parse_field], on the text after the opening brace. *)
Definition parse_field (s : string) : outcome (Field * string) :=
  match scan_name false s with
  | Err e => Err e
  | Ok None => Err (ValueError "expected '}' before end of string")
  | Ok (Some (name, c, r)) =>
      if Ascii.eqb c "}" then
        Ok ({| field_name := name; format_spec := ""; conversion := None |}, r)
      else if Ascii.eqb c "!" then
        match r with
        | EmptyString =>
            Err (ValueError
                   "end of string while looking for conversion specifier")
        | String cv EmptyString => parse_spec name (Some cv) ""
        | String cv (String c2 r2) =>
            if Ascii.eqb c2 "}" then
              Ok ({| field_name := name; format_spec := "";
                     conversion := Some cv |}, r2)
            else if Ascii.eqb c2 ":" then parse_spec name (Some cv) r2
            else Err (ValueError "expected ':' after conversion specifier")
        end
      else parse_spec name None r
  end.

(** The literal text up to the first brace, with that brace and the text
    after it. *)
Fixpoint scan_literal (s : string) : string * option (ascii * string) :=
  match s with
  | EmptyString => (EmptyString, None)
  | String c r =>
      if Ascii.eqb c "{" || Ascii.eqb c "}" then (EmptyString, Some (c, r))
      else let '(text, b) := scan_literal r in (String c text, b)
  end.

(** One step of the iterator: [None] at the end of the template, else the
    next item and the text still to parse. *)
Definition markup_next (s : string) : outcome (option (Item * string)) :=
  match s with
  | EmptyString => Ok None
  | _ =>
      match scan_literal s with
      | (text, None) => Ok (Some ((text, None), EmptyString))
      | (text, Some (c, EmptyString)) =>
          if Ascii.eqb c "}" then
            Err (ValueError "Single '}' encountered in format string")
          else Err (ValueError "Single '{' encountered in format string")
      | (text, Some (c, String c' r' as r)) =>
          if Ascii.eqb c "}" && negb (Ascii.eqb c' "}") then
            Err (ValueError "Single '}' encountered in format string")
          else if Ascii.eqb c c' then
            Ok (Some (((text ++ String c EmptyString)%string, None), r'))
          else
            match parse_field r with
            | Ok (f, rest) => Ok (Some ((text, Some f), rest))
            | Err e => Err e
            end
      end
  end.

(** The iterator is lazy: the items before a syntax error are yielded, and
    consumed by the caller, before the error is raised. *)
Fixpoint parse_aux (fuel : nat) (s : string) : list Item * option PyErr :=
  match fuel with
  | O => ([], None)
  | S fuel' =>
      match markup_next s with
      | Err e => ([], Some e)
      | Ok None => ([], None)
      | Ok (Some (it, rest)) =>
          let '(its, e) := parse_aux fuel' rest in (it :: its, e)
      end
  end.

(** Every step consumes at least one character. *)
Definition parse (s : string) : list Item * option PyErr :=
  parse_aux (S (String.length s)) s.

(** The replacement fields of a list of items, in order. *)
Fixpoint fields_of (items : list Item) : list Field :=
  match items with
  | [] => []
  | (_, Some f) :: r => f :: fields_of r
  | (_, None) :: r => fields_of r
  end.

(** ** [string.Formatter]: rendering *)

(** The builtins the inherited [convert_field] and [format_field] call:
    [str], [repr], [ascii] and [format(value, format_spec)].  They belong to
    the interpreter; what is proved about the formatter holds for them
    whatever they answer. *)
Class Builtins : Type := {
  py_str : PyVal -> string;
  py_repr : PyVal -> string;
  py_ascii : PyVal -> string;
  py_format : PyVal -> string -> outcome string
}.

(** Automatic numbering of [{}] fields: a counter, or [False] once a field
    was numbered by hand. *)
Inductive AutoArg : Type :=
| AutoIndex (n : N)
| Manual.

(** The value of a string of decimal digits. *)
Definition digits_value (s : string) : N :=
  fold_left (fun acc c => (acc * 10 + (N_of_ascii c - 48))%N)
            (list_ascii_of_string s) 0%N.

Definition PY_SSIZE_T_MAX : N := (2 ^ 63 - 1)%N.

(** The characters [SafeFormat.get_field] refuses in a field name. *)
Definition unsafe_name (field_name : string) : bool :=
  mem_char "." field_name || mem_char "[" field_name
  || mem_char "(" field_name.

Section Formatter.
Context {B : Builtins}.

(** [convert_field]. *)
Definition convert_field (value : PyVal) (conversion : option ascii)
  : outcome PyVal :=
  match conversion with
  | None => Ok value
  | Some c =>
      if Ascii.eqb c "s" then Ok (PStr (py_str value))
      else if Ascii.eqb c "r" then Ok (PStr (py_repr value))
      else if Ascii.eqb c "a" then Ok (PStr (py_ascii value))
      else Err (ValueError ("Unknown conversion specifier " ++ String c ""))
  end.

(** [format_field]. *)
Definition format_field (value : PyVal) (format_spec : string)
  : outcome string :=
  py_format value format_spec.

(** [get_value], with the empty [args] that [safe.format(fmt, **kwargs)]
    passes: a key made of digits is an index into [args], any other key is
    looked up in [kwargs]. *)
Definition get_value (key : string) (kwargs : PyDict) : outcome PyVal :=
  if isdigit key then
    if (PY_SSIZE_T_MAX <? digits_value key)%N then
      Err (ValueError "Too many decimal digits in format string")
    else Err IndexError
  else dict_item kwargs key.

(** [SafeFormat.get_field].  Behind the guard the name has no [.] and no
    [[], so the inherited [get_field] splits it into the whole name and an
    empty rest, and returns [get_value] of the name. *)
Definition get_field (field_name : string) (kwargs : PyDict)
  : outcome PyVal :=
  if unsafe_name field_name then Err InvalidFormat
  else get_value field_name kwargs.

(** The numbering step of [_vformat]. *)
Definition auto_number (field_name : string) (auto : AutoArg)
  : outcome (string * AutoArg) :=
  if String.eqb field_name "" then
    match auto with
    | Manual =>
        Err (ValueError
               "cannot switch from manual field specification to automatic field numbering")
    | AutoIndex n => Ok (digits 10 n, AutoIndex (n + 1))
    end
  else if isdigit field_name then
    match auto with
    | AutoIndex n =>
        if (n =? 0)%N then Ok (field_name, Manual)
        else
          Err (ValueError
                 "cannot switch from automatic field numbering to manual field specification")
    | Manual => Ok (field_name, Manual)
    end
  else Ok (field_name, auto).

(** The loop of [_vformat] over the parsed items; [expand] is the
    recursive call that expands the fields nested in a format spec. *)
Fixpoint render_items
    (expand : string -> AutoArg -> outcome (string * AutoArg))
    (kwargs : PyDict) (items : list Item) (acc : string) (auto : AutoArg)
  : outcome (string * AutoArg) :=
  match items with
  | [] => Ok (acc, auto)
  | (literal_text, None) :: rest =>
      render_items expand kwargs rest (acc ++ literal_text)%string auto
  | (literal_text, Some f) :: rest =>
      match auto_number (field_name f) auto with
      | Err e => Err e
      | Ok (name, auto1) =>
          obj <- get_field name kwargs ;;
          obj' <- convert_field obj (conversion f) ;;
          match expand (format_spec f) auto1 with
          | Err e => Err e
          | Ok (spec, auto2) =>
              text <- format_field obj' spec ;;
              render_items expand kwargs rest
                           (acc ++ literal_text ++ text)%string auto2
          end
      end
  end.

(** [_vformat]; [depth] is [recursion_depth + 1], so that [0] stands for
    the negative depth at which the recursion is refused. *)
Fixpoint _vformat (depth : nat) (kwargs : PyDict) (format_string : string)
    (auto : AutoArg) : outcome (string * AutoArg) :=
  match depth with
  | O => Err (ValueError "Max string recursion exceeded")
  | S depth' =>
      let '(items, syntax_error) := parse format_string in
      match render_items (_vformat depth' kwargs) kwargs items "" auto with
      | Err e => Err e
      | Ok r =>
          match syntax_error with
          | Some e => Err e
          | None => Ok r
          end
      end
  end.

(** [safe.format(fmt, **kwargs)]: [vformat] starts at recursion depth 2. *)
Definition format (format_string : string) (kwargs : PyDict)
  : outcome string :=
  match _vformat 3 kwargs format_string (AutoIndex 0) with
  | Ok (s, _) => Ok s
  | Err e => Err e
  end.
End Formatter.

(** An instance of the builtins for the scalars a log line is made of:
    [None], booleans, integers and strings, with an empty format spec.
    It serves to run the model on concrete events whose fields are such
    scalars; the text of floats and containers is not modelled and stands
    as a tag, and a format spec that is not empty is outside the
    instance. *)
Definition str_scalar (v : PyVal) : string :=
  match v with
  | PNone => "None"
  | PBool true => "True"
  | PBool false => "False"
  | PInt z => ((if (z <? 0)%Z then "-" else "") ++ digits 10 (Z.abs_N z))%string
  | PStr s => s
  | PFloat _ => "<float>"
  | PList _ => "<list>"
  | PTuple _ => "<tuple>"
  | PDict _ => "<dict>"
  end.

Definition scalar_builtins : Builtins := {|
  py_str := str_scalar;
  py_repr := str_scalar;
  py_ascii := str_scalar;
  py_format := fun v spec =>
    if String.eqb spec "" then Ok (str_scalar v)
    else Err (BuiltinError "format spec outside the scalar instance")
|}.



(** ** The task result handed to the callback *)

(** A role of the play; [str(role)] is its name. *)
Record Role : Type := { role_name : string }.

Record Task : Type := {
  _role : option Role;
  _uuid : string
}.

Record Host : Type := { name : string }.

Record TaskResult : Type := {
  _task : Task;
  _task_fields : PyDict;
  _host : Host;
  _result : PyDict
}.

(** ** [LogDNAHTTPIngestEndpoint] *)

Record LogDNAHTTPIngestEndpoint : Type := {
  ansible_check_mode : bool;
  ansible_playbook : string;
  ansible_version : PyVal;
  session : string;
  host : string;
  ip_address : string;
  user : string
}.

Definition set_ansible_check_mode (self : LogDNAHTTPIngestEndpoint) (b : bool)
  : LogDNAHTTPIngestEndpoint :=
  {| ansible_check_mode := b;
     ansible_playbook := ansible_playbook self;
     ansible_version := ansible_version self;
     session := session self; host := host self;
     ip_address := ip_address self; user := user self |}.

Definition set_ansible_version (self : LogDNAHTTPIngestEndpoint) (v : PyVal)
  : LogDNAHTTPIngestEndpoint :=
  {| ansible_check_mode := ansible_check_mode self;
     ansible_playbook := ansible_playbook self;
     ansible_version := v;
     session := session self; host := host self;
     ip_address := ip_address self; user := user self |}.

Definition set_ansible_playbook (self : LogDNAHTTPIngestEndpoint) (p : string)
  : LogDNAHTTPIngestEndpoint :=
  {| ansible_check_mode := ansible_check_mode self;
     ansible_playbook := p;
     ansible_version := ansible_version self;
     session := session self; host := host self;
     ip_address := ip_address self; user := user self |}.

(** The options of the plugin are strings, or [None] when unset. *)
Definition opt_val (o : option string) : PyVal :=
  match o with
  | Some s => PStr s
  | None => PNone
  end.

Definition opt_truthy (o : option string) : bool := truthy (opt_val o).

(** The [conf_*] arguments of [send_logdna]. *)
Record Conf : Type := {
  conf_appname : option string;
  conf_endpoint : option string;
  conf_disable_loglevel : option string;
  conf_host : option string;
  conf_hostname : option string;
  conf_ingestion_key : option string;
  conf_ip_addr : option string;
  conf_log_fmt : option string;
  conf_mac_addr : option string;
  conf_tags : option string;
  conf_timeout : PyVal
}.

(** What [open_url] is called with.  [request_json] is the document that
    [json_dumps] serialises, [request_params] the query that [urlencode]
    encodes. *)
Record Request : Type := {
  request_host : option string;
  request_endpoint : option string;
  request_params : PyDict;
  request_json : PyVal;
  force_basic_auth : bool;
  headers : PyDict;
  http_agent : string;
  method : string;
  timeout : PyVal;
  url_username : option string;
  validate_certs : bool
}.

(** [loglevels.get(state, 'UNKNOWN')]. *)
Definition loglevels : list (string * string) :=
  [("OK", "INFO"); ("SKIPPED", "WARN"); ("FAILED", "ERROR");
   ("UNREACHABLE", "WARN")].

Fixpoint assoc_get (l : list (string * string)) (k : string) (default : string)
  : string :=
  match l with
  | [] => default
  | (k', v) :: r => if String.eqb k' k then v else assoc_get r k default
  end.

Definition loglevel (state : string) : string :=
  assoc_get loglevels state "UNKNOWN".

(** [d.get(k, default)] on an arbitrary value. *)
Definition py_get_default (v : PyVal) (k : string) (default : PyVal)
  : outcome PyVal :=
  match v with
  | PDict d =>
      Ok (match dict_lookup d k with Some x => x | None => default end)
  | _ => Err AttributeError
  end.

Definition default_log_fmt : string :=
  "status={status} action={action} changed={changed} play={playbook} role={role} host={host} name={name}".

(** The timestamp of the log line (lines 282-286). *)
Definition timestamp_of (_result : PyDict) (iso_now : string) : outcome PyVal :=
  if truthy (dict_get _result "ansible_facts") then
    date_time <- py_get (dict_get _result "ansible_facts") "ansible_date_time" ;;
    py_get date_time "iso8601"
  else Ok (PStr iso_now).

(** The hostname of the request (lines 288-290). *)
Definition effective_hostname (conf_hostname : option string)
    (result : TaskResult) : PyVal :=
  if negb (opt_truthy conf_hostname) then PStr (name (_host result))
  else opt_val conf_hostname.

(** The metadata before and after pruning (lines 292-308). *)
Definition build_meta (self : LogDNAHTTPIngestEndpoint) (state : string)
    (result : TaskResult) (exectime : float) : PyDict :=
  let ansible_role :=
    match _role (_task result) with
    | Some r => PStr (role_name r)
    | None => PNone
    end in
  let meta := [] in
  let meta := dict_set meta "ansible_changed" (dict_get (_result result) "changed") in
  let meta := dict_set meta "ansible_check_mode" (PBool (ansible_check_mode self)) in
  let meta := dict_set meta "ansible_host" (PStr (name (_host result))) in
  let meta := dict_set meta "ansible_playbook" (PStr (ansible_playbook self)) in
  let meta := dict_set meta "ansible_result" (PDict (_result result)) in
  let meta := dict_set meta "ansible_role" ansible_role in
  let meta := dict_set meta "ansible_session" (PStr (session self)) in
  let meta := dict_set meta "ansible_status" (PStr state) in
  let meta := dict_set meta "ansible_task" (PDict (_task_fields result)) in
  let meta := dict_set meta "ansible_version" (ansible_version self) in
  let meta := dict_set meta "ansible_execution_time" (PFloat exectime) in
  let meta := dict_set meta "system_host" (PStr (host self)) in
  let meta := dict_set meta "system_ip" (PStr (ip_address self)) in
  let meta := dict_set meta "system_user" (PStr (user self)) in
  let meta := dict_set meta "uuid" (PStr (_uuid (_task result))) in
  meta.

Definition pruned_meta (self : LogDNAHTTPIngestEndpoint) (state : string)
    (result : TaskResult) (exectime : float) : PyVal :=
  delete_empty_values (PDict (build_meta self state result exectime)).

Section Send.
Context {B : Builtins}.

(** The log line (lines 310-348). *)
Definition log_message (c : Conf) (meta : PyVal) (result : TaskResult)
  : outcome string :=
  ansible_task <- py_get_default meta "ansible_task" (PDict []) ;;
  action <- py_get ansible_task "action" ;;
  changed <- py_get meta "ansible_changed" ;;
  host <- py_get meta "ansible_host" ;;
  let name0 := dict_get (_task_fields result) "name" in
  let name := if negb (truthy name0) then PStr "" else name0 in
  playbook <- py_get meta "ansible_playbook" ;;
  role <- py_get meta "ansible_role" ;;
  status <- py_get meta "ansible_status" ;;
  let fmt :=
    if opt_truthy (conf_log_fmt c)
    then match conf_log_fmt c with Some f => f | None => "" end
    else default_log_fmt in
  text <- format fmt
            [("action", action); ("changed", changed); ("host", host);
             ("playbook", playbook); ("role", role); ("status", status);
             ("name", name)] ;;
  Ok (strip text).

(** Lines 277-408, once the sticky flags are set: everything up to the
    call of [open_url]. *)
Definition build_request (self : LogDNAHTTPIngestEndpoint) (c : Conf)
    (datetime_now : float) (iso_now : string)
    (state : string) (result : TaskResult) (exectime : float)
  : outcome Request :=
  timestamp <- timestamp_of (_result result) iso_now ;;
  let hostname := effective_hostname (conf_hostname c) result in
  let meta := pruned_meta self state result exectime in
  line <- log_message c meta result ;;
  let entry :=
    [("line", PStr line); ("timestamp", timestamp);
     ("app", opt_val (conf_appname c)); ("meta", meta)] in
  let entry :=
    if negb (opt_truthy (conf_disable_loglevel c))
    then dict_set entry "level" (PStr (loglevel state)) else entry in
  let entry :=
    if opt_truthy (conf_ip_addr c)
    then dict_set entry "ip" (opt_val (conf_ip_addr c)) else entry in
  let entry :=
    if opt_truthy (conf_mac_addr c)
    then dict_set entry "mac" (opt_val (conf_mac_addr c)) else entry in
  let logline := PDict [("lines", PList [PDict entry])] in
  let request_params :=
    [("hostname", hostname); ("now", PFloat datetime_now)] in
  let request_params :=
    if opt_truthy (conf_tags c)
    then dict_set request_params "tags" (opt_val (conf_tags c))
    else request_params in
  Ok {| request_host := conf_host c;
        request_endpoint := conf_endpoint c;
        request_params := request_params;
        request_json := logline;
        force_basic_auth := true;
        headers := [("content-type", PStr "application/json; charset=UTF-8")];
        http_agent := "ansible-callback/2.0";
        method := "POST";
        timeout := conf_timeout c;
        url_username := conf_ingestion_key c;
        validate_certs := true |}.

(** [send_logdna]: the endpoint after the call, and the request given to
    [open_url] or the exception raised before it.  [datetime_now] and
    [utcnow] are the two readings of the clock. *)
Definition send_logdna (self : LogDNAHTTPIngestEndpoint) (c : Conf)
    (datetime_now : float) (utcnow : datetime)
    (state : string) (result : TaskResult) (exectime : float)
  : LogDNAHTTPIngestEndpoint * outcome Request :=
  let iso_now := strftime_iso utcnow in
  match dict_item (_task_fields result) "args" with
  | Err e => (self, Err e)
  | Ok args =>
      match py_get args "_ansible_check_mode" with
      | Err e => (self, Err e)
      | Ok check_mode =>
          let self1 :=
            if truthy check_mode then set_ansible_check_mode self true
            else self in
          match py_get args "_ansible_version" with
          | Err e => (self1, Err e)
          | Ok version =>
              let self2 :=
                if truthy version then set_ansible_version self1 version
                else self1 in
              (self2,
               build_request self2 c datetime_now iso_now state result
                             exectime)
          end
      end
  end.
End Send.

(** ** Elapsed time *)

Definition is_leap (y : Z) : bool :=
  ((y mod 4 =? 0) && (negb (y mod 100 =? 0) || (y mod 400 =? 0)))%Z.

Definition days_before_year (y : Z) : Z :=
  ((y - 1) * 365 + (y - 1) / 4 - (y - 1) / 100 + (y - 1) / 400)%Z.

Definition days_before_month (y m : Z) : Z :=
  (nth (Z.to_nat m) [0; 0; 31; 59; 90; 120; 151; 181; 212; 243; 273; 304; 334] 0
   + (if (2 <? m) && is_leap y then 1 else 0))%Z.

(** The proleptic Gregorian ordinal of the day of [t]. *)
Definition toordinal (t : datetime) : Z :=
  (days_before_year (Z.of_N (year t))
   + days_before_month (Z.of_N (year t)) (Z.of_N (month t))
   + Z.of_N (day t))%Z.

(** [t1 - t0], in microseconds. *)
Definition timedelta (t1 t0 : datetime) : Z :=
  (((toordinal t1 - toordinal t0) * 86400
    + (Z.of_N (hour t1) * 3600 + Z.of_N (minute t1) * 60 + Z.of_N (second t1))
    - (Z.of_N (hour t0) * 3600 + Z.of_N (minute t0) * 60 + Z.of_N (second t0)))
   * 1000000
   + (Z.of_N (microsecond t1) - Z.of_N (microsecond t0)))%Z.

Definition float_of_Z (z : Z) : float :=
  if (z <? 0)%Z then PrimFloat.opp (PrimFloat.of_uint63 (Uint63.of_Z (- z)))
  else PrimFloat.of_uint63 (Uint63.of_Z z).

(** [total_seconds()]: the microseconds divided by [10**6].  A duration below
    [2**53] microseconds converts exactly, and the division rounds once, as
    the division of integers does in the source. *)
Definition total_seconds (microseconds : Z) : float :=
  PrimFloat.div (float_of_Z microseconds) (float_of_Z 1000000).

(** ** [CallbackModule] *)

(** The operand of [in] on a list of strings: a plain value or a role
    object. *)
Inductive PyObj : Type :=
| OVal (v : PyVal)
| ORole (r : Role).

(** [x == s] for a string [s]: only a string with the same characters is
    equal to it; [None], numbers, containers and role objects are not. *)
Definition py_eq_str (x : PyObj) (s : string) : bool :=
  match x with
  | OVal (PStr t) => String.eqb t s
  | _ => false
  end.

(** [x in l]. *)
Definition py_in (x : PyObj) (l : list string) : bool :=
  existsb (py_eq_str x) l.

Definition role_obj (r : option Role) : PyObj :=
  match r with
  | Some role => ORole role
  | None => OVal PNone
  end.

(** What [get_option] answers for each option of the plugin. *)
Record Options : Type := {
  logdna_appname : option string;
  logdna_endpoint : option string;
  logdna_disable_loglevels : option string;
  logdna_host : option string;
  logdna_timeout : option string;
  logdna_use_target_host_for_hostname : option string;
  logdna_hostname : option string;
  logdna_ignore_status_names : option string;
  logdna_ignore_action_names : option string;
  conf_ignore_role_names : option string;
  conf_ignore_play_names : option string;
  logdna_ingestion_key : option string;
  logdna_ip_address : option string;
  logdna_log_format : option string;
  logdna_mac_address : option string;
  logdna_tags : option string
}.

(** What the system calls answer on the runner host. *)
Record System : Type := {
  gethostname : string;
  get_ipaddr : string;
  getnode : N
}.

Record CallbackModule : Type := {
  start_datetimes : list (string * datetime);
  logdna_callback : LogDNAHTTPIngestEndpoint;
  conf : Conf;
  conf_use_target_host_for_hostnmae : option string;
  conf_ignore_statuses : list string;
  conf_ignore_actions : list string;
  conf_ignore_roles : list string;
  conf_ignore_plays : list string;
  disabled : bool
}.

Definition or_default (o : option string) (default : string) : option string :=
  match o with
  | Some s => Some s
  | None => Some default
  end.

(** An ignore-list option: split at the commas when set and not empty. *)
Definition ignore_list (o : option string) (f : string -> string)
  : list string :=
  if opt_truthy o
  then match o with Some s => split_comma (f s) | None => [] end
  else [].

(** The override of the IP or MAC address: the detected value when unset,
    nothing when the option starts with [disable]. *)
Definition address_option (o : option string) (detected : string)
  : option string :=
  match o with
  | None => Some detected
  | Some s => if String.prefix "disable" (lower s) then None else Some s
  end.

(** [set_options] (lines 465-545). *)
Definition set_options (self : CallbackModule) (o : Options) (sys : System)
  : CallbackModule :=
  let use_target := logdna_use_target_host_for_hostname o in
  {| start_datetimes := start_datetimes self;
     logdna_callback := logdna_callback self;
     conf :=
       {| conf_appname := or_default (logdna_appname o) "ansible";
          conf_endpoint := or_default (logdna_endpoint o) "/logs/ingest";
          conf_disable_loglevel := logdna_disable_loglevels o;
          conf_host := or_default (logdna_host o) "logs.logdna.com";
          conf_hostname :=
            if negb (opt_truthy use_target)
            then Some (get_local_hostname (gethostname sys))
            else logdna_hostname o;
          conf_ingestion_key := logdna_ingestion_key o;
          conf_ip_addr := address_option (logdna_ip_address o) (get_ipaddr sys);
          conf_log_fmt := logdna_log_format o;
          conf_mac_addr :=
            address_option (logdna_mac_address o) (get_hwaddr (getnode sys));
          conf_tags := logdna_tags o;
          conf_timeout :=
            if negb (opt_truthy (logdna_timeout o)) then PInt 5
            else opt_val (logdna_timeout o) |};
     conf_use_target_host_for_hostnmae := use_target;
     conf_ignore_statuses := ignore_list (logdna_ignore_status_names o) lower;
     conf_ignore_actions :=
       ignore_list (logdna_ignore_action_names o) (fun s => s);
     conf_ignore_roles := ignore_list (conf_ignore_role_names o) (fun s => s);
     conf_ignore_plays := ignore_list (conf_ignore_play_names o) (fun s => s);
     disabled :=
       match logdna_ingestion_key o with
       | None => true
       | Some _ => disabled self
       end |}.

Fixpoint lookup_start (d : list (string * datetime)) (k : string)
  : option datetime :=
  match d with
  | [] => None
  | (k', t) :: r => if String.eqb k' k then Some t else lookup_start r k
  end.

Fixpoint record_start (d : list (string * datetime)) (k : string)
    (t : datetime) : list (string * datetime) :=
  match d with
  | [] => [(k, t)]
  | (k', t') :: r =>
      if String.eqb k' k then (k', t) :: r else (k', t') :: record_start r k t
  end.

(** [_execution_timer]: [utcnow] is the clock at the call. *)
Definition _execution_timer (self : CallbackModule) (utcnow : datetime)
    (result : TaskResult) : outcome float :=
  match lookup_start (start_datetimes self) (_uuid (_task result)) with
  | Some t0 => Ok (total_seconds (timedelta utcnow t0))
  | None => Err (KeyError (_uuid (_task result)))
  end.

(** The test of [_handle_event] (lines 444-447). *)
Definition ignored (self : CallbackModule) (status : string)
    (result : TaskResult) : bool :=
  let action := dict_get (_task_fields result) "action" in
  let role := _role (_task result) in
  let play := ansible_playbook (logdna_callback self) in
  py_in (OVal action) (conf_ignore_actions self)
  || py_in (role_obj role) (conf_ignore_roles self)
  || py_in (OVal (PStr play)) (conf_ignore_plays self)
  || py_in (OVal (PStr (lower status))) (conf_ignore_statuses self).

Definition with_endpoint (self : CallbackModule)
    (e : LogDNAHTTPIngestEndpoint) : CallbackModule :=
  {| start_datetimes := start_datetimes self;
     logdna_callback := e;
     conf := conf self;
     conf_use_target_host_for_hostnmae := conf_use_target_host_for_hostnmae self;
     conf_ignore_statuses := conf_ignore_statuses self;
     conf_ignore_actions := conf_ignore_actions self;
     conf_ignore_roles := conf_ignore_roles self;
     conf_ignore_plays := conf_ignore_plays self;
     disabled := disabled self |}.

Definition with_start (self : CallbackModule) (uuid : string) (t : datetime)
  : CallbackModule :=
  {| start_datetimes := record_start (start_datetimes self) uuid t;
     logdna_callback := logdna_callback self;
     conf := conf self;
     conf_use_target_host_for_hostnmae := conf_use_target_host_for_hostnmae self;
     conf_ignore_statuses := conf_ignore_statuses self;
     conf_ignore_actions := conf_ignore_actions self;
     conf_ignore_roles := conf_ignore_roles self;
     conf_ignore_plays := conf_ignore_plays self;
     disabled := disabled self |}.

(** The readings of the clock during one event: [utcnow()] of the timer,
    then [time()] and [utcnow()] of [send_logdna]. *)
Record Clock : Type := {
  timer_utcnow : datetime;
  send_time : float;
  send_utcnow : datetime
}.

Section Handle.
Context {B : Builtins}.

(** [_handle_event]: the callback after the event, and [Ok None] when the
    event is ignored, [Ok (Some request)] when [open_url] is called,
    [Err e] when an exception is raised before. *)
Definition _handle_event (self : CallbackModule) (clock : Clock)
    (status : string) (result : TaskResult)
  : CallbackModule * outcome (option Request) :=
  if negb (ignored self status result) then
    match _execution_timer self (timer_utcnow clock) result with
    | Err e => (self, Err e)
    | Ok exectime =>
        let '(endpoint, sent) :=
          send_logdna (logdna_callback self) (conf self)
                      (send_time clock) (send_utcnow clock)
                      status result exectime in
        (with_endpoint self endpoint,
         match sent with
         | Ok request => Ok (Some request)
         | Err e => Err e
         end)
    end
  else (self, Ok None).

Definition v2_runner_on_failed self clock result :=
  _handle_event self clock "FAILED" result.
Definition v2_runner_on_ok self clock result :=
  _handle_event self clock "OK" result.
Definition v2_runner_on_skipped self clock result :=
  _handle_event self clock "SKIPPED" result.
Definition v2_runner_on_unreachable self clock result :=
  _handle_event self clock "UNREACHABLE" result.
End Handle.

Definition v2_playbook_on_task_start (self : CallbackModule) (task : Task)
    (utcnow : datetime) : CallbackModule :=
  with_start self (_uuid task) utcnow.

Definition v2_playbook_on_handler_task_start (self : CallbackModule)
    (task : Task) (utcnow : datetime) : CallbackModule :=
  with_start self (_uuid task) utcnow.

(** [basename]: what follows the last slash. *)
Fixpoint basename (path : string) : string :=
  match path with
  | EmptyString => EmptyString
  | String c r =>
      if mem_char "/" r then basename r
      else if Ascii.eqb c "/" then r else path
  end.

(** The playbook file of [v2_playbook_on_start]. *)
Definition v2_playbook_on_start (self : CallbackModule) (_file_name : string)
  : CallbackModule :=
  with_endpoint self
    (set_ansible_playbook (logdna_callback self) (basename _file_name)).

(** ** What the claims speak of *)

(** The names [send_logdna] passes to the formatter. *)
Definition fixed_fields : list string :=
  ["action"; "changed"; "host"; "playbook"; "role"; "status"; "name"].


(** The exception a placeholder raises when its name is bound to nothing:
    an empty or numeric name indexes the empty [args], any other name is
    looked up in [kwargs]. *)
Definition lookup_error (field_name : string) : PyErr :=
  if String.eqb field_name "" then IndexError
  else if isdigit field_name then
    if (PY_SSIZE_T_MAX <? digits_value field_name)%N
    then ValueError "Too many decimal digits in format string"
    else IndexError
  else KeyError field_name.

(** [k in v], for a dict [v]. *)
Definition has_key (v : PyVal) (k : string) : bool :=
  match v with
  | PDict d => existsb (String.eqb k) (dict_keys d)
  | _ => false
  end.

(** [request_json['lines'][0]]. *)
Definition request_line (r : Request) : PyDict :=
  match request_json r with
  | PDict d =>
      match dict_lookup d "lines" with
      | Some (PList (PDict entry :: _)) => entry
      | _ => []
      end
  | _ => []
  end.

(** ** Sample events *)

Definition sample_endpoint : LogDNAHTTPIngestEndpoint :=
  {| ansible_check_mode := false;
     ansible_playbook := "site.yml";
     ansible_version := PStr "";
     session := "6f1c2a9e-0d7b-4c55-9a53-2f6f0c1d7e11";
     host := "runner";
     ip_address := "192.0.2.10";
     user := "deploy" |}.

Definition sample_options : Options :=
  {| logdna_appname := None;
     logdna_endpoint := None;
     logdna_disable_loglevels := None;
     logdna_host := None;
     logdna_timeout := None;
     logdna_use_target_host_for_hostname := None;
     logdna_hostname := None;
     logdna_ignore_status_names := None;
     logdna_ignore_action_names := None;
     conf_ignore_role_names := None;
     conf_ignore_play_names := None;
     logdna_ingestion_key := Some "0123456789abcdef";
     logdna_ip_address := None;
     logdna_log_format := None;
     logdna_mac_address := None;
     logdna_tags := None |}.

Definition sample_system : System :=
  {| gethostname := "runner.local";
     get_ipaddr := "192.0.2.10";
     getnode := 0xaabbccddeeff |}.

Definition sample_start : datetime :=
  {| year := 2021; month := 3; day := 4; hour := 10; minute := 0;
     second := 0; microsecond := 0 |}.

Definition sample_now : datetime :=
  {| year := 2021; month := 3; day := 4; hour := 10; minute := 0;
     second := 2; microsecond := 500000 |}.

Definition sample_clock : Clock :=
  {| timer_utcnow := sample_now;
     send_time := 1614852002.5%float;
     send_utcnow := sample_now |}.

Definition initial_callback : CallbackModule :=
  {| start_datetimes := [("task-1", sample_start)];
     logdna_callback := sample_endpoint;
     conf :=
       {| conf_appname := None; conf_endpoint := None;
          conf_disable_loglevel := None; conf_host := None;
          conf_hostname := None; conf_ingestion_key := None;
          conf_ip_addr := None; conf_log_fmt := None; conf_mac_addr := None;
          conf_tags := None; conf_timeout := PNone |};
     conf_use_target_host_for_hostnmae := None;
     conf_ignore_statuses := [];
     conf_ignore_actions := [];
     conf_ignore_roles := [];
     conf_ignore_plays := [];
     disabled := false |}.

Definition sample_callback : CallbackModule :=
  set_options initial_callback sample_options sample_system.

(** A [shell] task of the role [nginx], run against [web01]. *)
Definition sample_result (_result : PyDict) : TaskResult :=
  {| _task := {| _role := Some {| role_name := "nginx" |};
                 _uuid := "task-1" |};
     _task_fields :=
       [("action", PStr "shell"); ("name", PStr "restart nginx");
        ("args", PDict [("_raw_params", PStr "systemctl restart nginx")])];
     _host := {| name := "web01" |};
     _result := _result |}.

Definition changed_result : TaskResult :=
  sample_result [("changed", PBool true); ("rc", PInt 0)].

Definition unchanged_result : TaskResult :=
  sample_result [("changed", PBool false); ("rc", PInt 0)].

(** The result of a task that sets facts of its own, such as [set_fact]. *)
Definition set_fact_result : TaskResult :=
  sample_result
    [("changed", PBool false);
     ("ansible_facts", PDict [("deploy_color", PStr "blue")])].

(** Facts with the date of the target but no [iso8601] entry. *)
Definition partial_date_result : TaskResult :=
  sample_result
    [("changed", PBool false);
     ("ansible_facts",
      PDict [("ansible_date_time", PDict [("epoch", PStr "1614852002")])])].

Definition dated_result : TaskResult :=
  sample_result
    [("changed", PBool false);
     ("ansible_facts",
      PDict [("ansible_date_time",
              PDict [("iso8601", PStr "2021-01-01T00:00:00Z")])])].

(** The target host is asked for, and a hostname is configured as well. *)
Definition override_options : Options :=
  {| logdna_appname := None;
     logdna_endpoint := None;
     logdna_disable_loglevels := None;
     logdna_host := None;
     logdna_timeout := None;
     logdna_use_target_host_for_hostname := Some "true";
     logdna_hostname := Some "logs-gateway";
     logdna_ignore_status_names := None;
     logdna_ignore_action_names := None;
     conf_ignore_role_names := None;
     conf_ignore_play_names := None;
     logdna_ingestion_key := Some "0123456789abcdef";
     logdna_ip_address := None;
     logdna_log_format := None;
     logdna_mac_address := None;
     logdna_tags := None |}.

(** The role [nginx] is to be ignored. *)
Definition ignore_role_options : Options :=
  {| logdna_appname := None;
     logdna_endpoint := None;
     logdna_disable_loglevels := None;
     logdna_host := None;
     logdna_timeout := None;
     logdna_use_target_host_for_hostname := None;
     logdna_hostname := None;
     logdna_ignore_status_names := None;
     logdna_ignore_action_names := None;
     conf_ignore_role_names := Some "nginx";
     conf_ignore_play_names := None;
     logdna_ingestion_key := Some "0123456789abcdef";
     logdna_ip_address := None;
     logdna_log_format := None;
     logdna_mac_address := None;
     logdna_tags := None |}.

(** Statuses and actions to be ignored, and log levels switched off. *)
Definition ignore_status_options : Options :=
  {| logdna_appname := None;
     logdna_endpoint := None;
     logdna_disable_loglevels := Some "true";
     logdna_host := None;
     logdna_timeout := None;
     logdna_use_target_host_for_hostname := None;
     logdna_hostname := None;
     logdna_ignore_status_names := Some "Skipped,OK";
     logdna_ignore_action_names := Some "debug,setup";
     conf_ignore_role_names := None;
     conf_ignore_play_names := None;
     logdna_ingestion_key := Some "0123456789abcdef";
     logdna_ip_address := None;
     logdna_log_format := None;
     logdna_mac_address := None;
     logdna_tags := None |}.

(** The options with a log format of the operator's. *)
Definition format_options (fmt : string) : Options :=
  {| logdna_appname := None;
     logdna_endpoint := None;
     logdna_disable_loglevels := None;
     logdna_host := None;
     logdna_timeout := None;
     logdna_use_target_host_for_hostname := None;
     logdna_hostname := None;
     logdna_ignore_status_names := None;
     logdna_ignore_action_names := None;
     conf_ignore_role_names := None;
     conf_ignore_play_names := None;
     logdna_ingestion_key := Some "0123456789abcdef";
     logdna_ip_address := None;
     logdna_log_format := Some fmt;
     logdna_mac_address := None;
     logdna_tags := None |}.

(** The hostname the options lead to (lines 493-497, then 288-290). *)
Definition hostname_by_options (o : Options) (sys : System)
    (result : TaskResult) : PyVal :=
  if opt_truthy (logdna_use_target_host_for_hostname o) then
    if opt_truthy (logdna_hostname o) then opt_val (logdna_hostname o)
    else PStr (name (_host result))
  else if String.eqb (get_local_hostname (gethostname sys)) "" then
    PStr (name (_host result))
  else PStr (get_local_hostname (gethostname sys)).

(** A task looping over [a | zip(b) | list]: the item of the result is a
    tuple. *)
Definition zipped_result : TaskResult :=
  sample_result
    [("changed", PBool true);
     ("item", PTuple [PStr "web01"; PStr ""; PNone; PList []])].



(** The field values of the sample event, as [send_logdna] passes them. *)
Definition sample_kwargs : PyDict :=
  [("action", PStr "shell"); ("changed", PBool true); ("host", PStr "web01");
   ("playbook", PStr "site.yml"); ("role", PStr "nginx");
   ("status", PStr "OK"); ("name", PStr "restart nginx")].

(** ** What the further properties speak of *)

(** [sep in s]: [sep] occurs in [s]. *)
Fixpoint occurs (sep : string) (s : string) : bool :=
  String.prefix sep s
  || match s with
     | EmptyString => false
     | String _ r => occurs sep r
     end.

(** ** [get_ipaddr]

    The calls the function makes to the resolver and to the probe socket, in
    order, and what the function returns.  The answers of the system are
    the fields of [Network]: [None] stands for a call that raises. *)
Module HostProbe.

Inductive Event : Type :=
| Resolve (hostname : string)
| Socket
| Connect (address : string) (port : N)
| GetSockName
| Close.

Record Network : Type := {
  gethostbyname : string -> option string;
  socket : option PyErr;          (* [Some e]: creating the socket raises [e] *)
  connect : bool;                 (* [false]: [s.connect] raises *)
  getsockname : option string     (* the address of [s.getsockname()[0]] *)
}.

Definition probe : Event := Connect "10.255.255.255" 1.

(** [get_ipaddr] (lines 211-226). *)
Definition get_ipaddr (net : Network) (hostname : string)
  : outcome string * list Event :=
  let local := get_local_hostname hostname in
  match gethostbyname net local with
  | Some ip => (Ok ip, [Resolve local])
  | None =>
      match socket net with
      | Some e => (Err e, [Resolve local; Socket])
      | None =>
          let '(IP, calls) :=
            if connect net then
              match getsockname net with
              | Some ip => (ip, [probe; GetSockName])
              | None => ("127.0.0.1", [probe; GetSockName])
              end
            else ("127.0.0.1", [probe]) in
          (Ok IP, (Resolve local :: Socket :: calls) ++ [Close])
      end
  end.

Definition is_socket (e : Event) : bool :=
  match e with Socket => true | _ => false end.

Definition is_close (e : Event) : bool :=
  match e with Close => true | _ => false end.

End HostProbe.

(** A network without resolver entry for the runner, whose probe socket
    reports [192.0.2.10]. *)
Definition sample_network : HostProbe.Network :=
  {| HostProbe.gethostbyname := fun _ => None;
     HostProbe.socket := None;
     HostProbe.connect := true;
     HostProbe.getsockname := Some "192.0.2.10" |}.

(** The same where the probe cannot connect. *)
Definition offline_network : HostProbe.Network :=
  {| HostProbe.gethostbyname := fun _ => None;
     HostProbe.socket := None;
     HostProbe.connect := false;
     HostProbe.getsockname := None |}.

(** Options that switch the MAC address off, override the IP address and
    the host, and set tags and a timeout. *)
Definition tuned_options : Options :=
  {| logdna_appname := Some "deploys";
     logdna_endpoint := None;
     logdna_disable_loglevels := None;
     logdna_host := Some "logs.example.org";
     logdna_timeout := Some "10";
     logdna_use_target_host_for_hostname := None;
     logdna_hostname := None;
     logdna_ignore_status_names := None;
     logdna_ignore_action_names := None;
     conf_ignore_role_names := None;
     conf_ignore_play_names := None;
     logdna_ingestion_key := Some "0123456789abcdef";
     logdna_ip_address := Some "198.51.100.7";
     logdna_log_format := None;
     logdna_mac_address := Some "Disabled";
     logdna_tags := Some "prod,web" |}.

(** ** The calls of the engine

    The engine calls the plugin once per event, one call after the other;
    an exception of the plugin is reported by the engine and the run goes
    on with the plugin as the failed call left it. *)
Inductive Callback : Type :=
| playbook_on_start (_file_name : string)
| playbook_on_task_start (task : Task) (utcnow : datetime)
| playbook_on_handler_task_start (task : Task) (utcnow : datetime)
| runner_on_ok (clock : Clock) (result : TaskResult)
| runner_on_failed (clock : Clock) (result : TaskResult)
| runner_on_skipped (clock : Clock) (result : TaskResult)
| runner_on_unreachable (clock : Clock) (result : TaskResult).

Section Run.
Context {B : Builtins}.

Definition dispatch (self : CallbackModule) (call : Callback)
  : CallbackModule * outcome (option Request) :=
  match call with
  | playbook_on_start f => (v2_playbook_on_start self f, Ok None)
  | playbook_on_task_start task t =>
      (v2_playbook_on_task_start self task t, Ok None)
  | playbook_on_handler_task_start task t =>
      (v2_playbook_on_handler_task_start self task t, Ok None)
  | runner_on_ok clock result => v2_runner_on_ok self clock result
  | runner_on_failed clock result => v2_runner_on_failed self clock result
  | runner_on_skipped clock result => v2_runner_on_skipped self clock result
  | runner_on_unreachable clock result =>
      v2_runner_on_unreachable self clock result
  end.

(** The plugin after the calls, and what each call sent or raised. *)
Fixpoint run (self : CallbackModule) (calls : list Callback)
  : CallbackModule * list (outcome (option Request)) :=
  match calls with
  | [] => (self, [])
  | call :: rest =>
      let '(self1, out) := dispatch self call in
      let '(self2, outs) := run self1 rest in
      (self2, out :: outs)
  end.
End Run.

(** A check-mode task: the engine passes [_ansible_check_mode] and its
    version in the arguments. *)
Definition check_mode_result : TaskResult :=
  {| _task := {| _role := None; _uuid := "task-2" |};
     _task_fields :=
       [("action", PStr "copy"); ("name", PStr "");
        ("args", PDict [("_ansible_check_mode", PBool true);
                        ("_ansible_version", PStr "2.9.27")])];
     _host := {| name := "web02" |};
     _result := [("changed", PBool false)] |}.

Definition sample_run : list Callback :=
  [playbook_on_start "/srv/plays/site.yml";
   playbook_on_task_start (_task check_mode_result) sample_start;
   runner_on_ok sample_clock check_mode_result;
   runner_on_failed sample_clock changed_result].

(** What no call changes: the identity of the session and of the runner,
    the configuration, and the ignore-lists; the check-mode flag is never
    taken back and a recorded start is never removed. *)
Definition kept_by_calls (self self' : CallbackModule) : Prop :=
  session (logdna_callback self') = session (logdna_callback self)
  /\ host (logdna_callback self') = host (logdna_callback self)
  /\ ip_address (logdna_callback self') = ip_address (logdna_callback self)
  /\ user (logdna_callback self') = user (logdna_callback self)
  /\ conf self' = conf self
  /\ conf_ignore_statuses self' = conf_ignore_statuses self
  /\ conf_ignore_actions self' = conf_ignore_actions self
  /\ conf_ignore_roles self' = conf_ignore_roles self
  /\ conf_ignore_plays self' = conf_ignore_plays self
  /\ disabled self' = disabled self
  /\ (ansible_check_mode (logdna_callback self) = true ->
      ansible_check_mode (logdna_callback self') = true)
  /\ (forall uuid,
         lookup_start (start_datetimes self) uuid <> None ->
         lookup_start (start_datetimes self') uuid <> None).

(** What a lookup finds after pruning for a key bound to [v]: the pruned
    value, or [None] when that is false and the key was dropped. *)
Definition kept (v : PyVal) : PyVal :=
  let w := delete_empty_values v in
  if truthy w then w else PNone.

(** The items of a pruned dict. *)
Definition pruned_items (d : PyDict) : PyDict :=
  match delete_empty_values (PDict d) with
  | PDict items => items
  | _ => []
  end.

(** The seven fields [send_logdna] passes to the formatter (lines 311-326
    and 342-348), read off the pruned metadata, and the task name off the
    task fields. *)
Definition log_fields (self : LogDNAHTTPIngestEndpoint) (state : string)
    (result : TaskResult) : PyDict :=
  [("action", dict_get (pruned_items (_task_fields result)) "action");
   ("changed", kept (dict_get (_result result) "changed"));
   ("host", kept (PStr (name (_host result))));
   ("playbook", kept (PStr (ansible_playbook self)));
   ("role", kept (match _role (_task result) with
                  | Some r => PStr (role_name r)
                  | None => PNone
                  end));
   ("status", kept (PStr state));
   ("name", let n := dict_get (_task_fields result) "name" in
            if negb (truthy n) then PStr "" else n)].

Section DefaultLine.
Context {B : Builtins}.

(** The default template with the text of each field in its place. *)
Definition default_line (fields : PyDict) : string :=
  "status=" ++ py_str (dict_get fields "status")
  ++ " action=" ++ py_str (dict_get fields "action")
  ++ " changed=" ++ py_str (dict_get fields "changed")
  ++ " play=" ++ py_str (dict_get fields "playbook")
  ++ " role=" ++ py_str (dict_get fields "role")
  ++ " host=" ++ py_str (dict_get fields "host")
  ++ " name=" ++ py_str (dict_get fields "name").
End DefaultLine.

Definition first_char (s : string) : option ascii :=
  match s with
  | EmptyString => None
  | String c _ => Some c
  end.

Fixpoint last_char (s : string) : option ascii :=
  match s with
  | EmptyString => None
  | String c EmptyString => Some c
  | String _ r => last_char r
  end.

(** A text with every brace doubled: the way to write it in a template. *)
Fixpoint escape (s : string) : string :=
  match s with
  | EmptyString => EmptyString
  | String c r =>
      if Ascii.eqb c "{" || Ascii.eqb c "}"
      then String c (String c (escape r))
      else String c (escape r)
  end.

(** The literal texts of a list of items, one after the other. *)
Fixpoint literal_text (items : list Item) : string :=
  match items with
  | [] => EmptyString
  | (lit, _) :: r => lit ++ literal_text r
  end.

(** [zero_pad width (digits 10 n)] has [width] characters and reads back
    as [n]. *)
Definition padded_ok (width : nat) (n : N) : bool :=
  let s := zero_pad width (digits 10 n) in
  Nat.eqb (String.length s) width && N.eqb (digits_value s) n
  && forallb is_digit (list_ascii_of_string s).

(** A value that is neither a list, a tuple nor a dict. *)
Definition is_scalar (v : PyVal) : bool :=
  match v with
  | PList _ | PTuple _ | PDict _ => false
  | _ => true
  end.

(** The status in the metadata of a request, [None] when the metadata has
    none. *)
Definition request_status (r : Request) : option PyVal :=
  match dict_lookup (request_line r) "meta" with
  | Some (PDict meta) => dict_lookup meta "ansible_status"
  | _ => None
  end.

(** The level of a request, [None] when the line has none. *)
Definition request_level (r : Request) : option PyVal :=
  dict_lookup (request_line r) "level".

(** * Properties of the pruning *)

Lemma truthy_not_empty (v : PyVal) :
  truthy v = true -> is_empty_value v = false.
Proof.
  destruct v as [| b | z | f | s | [|x l] | [|x t] | [|kv d]]; simpl;
    try congruence.
  now destruct (String.eqb s "").
Qed.


Lemma all_outside_tuples_weaken (p q : PyVal -> bool) :
  (forall x, p x = true -> q x = true) ->
  forall v, all_outside_tuples p v = true -> all_outside_tuples q v = true.
Proof.
  intros Hpq v.
  induction v as [| | | | | l IH | t _ | d IH] using PyVal_nested_ind;
    simpl; auto.
  - induction IH as [| x l Hx _ IHl]; simpl; auto.
    intros H. apply andb_prop in H as [H1 H2]. apply andb_prop in H1 as [Ha Hb].
    rewrite (Hpq _ Ha), (Hx Hb). simpl. auto.
  - induction IH as [| [k x] d Hx _ IHd]; simpl; auto.
    intros H. apply andb_prop in H as [H1 H2]. apply andb_prop in H1 as [Ha Hb].
    simpl in Hx. rewrite (Hpq _ Ha), (Hx Hb). simpl. auto.
Qed.

(** After pruning, whatever sits in a list or a dict, outside the tuples,
    is true. *)
Lemma delete_empty_values_truthy_outside_tuples (v : PyVal) :
  all_outside_tuples truthy (delete_empty_values v) = true.
Proof.
  induction v as [| | | | | l IH | t _ | d IH] using PyVal_nested_ind;
    simpl; auto.
  - induction IH as [| x l Hx _ IHl]; simpl; auto.
    destruct (truthy (delete_empty_values x)) eqn:E; simpl; auto.
    now rewrite E, Hx.
  - induction IH as [| [k x] d Hx _ IHd]; simpl; auto.
    simpl in Hx.
    destruct (truthy (delete_empty_values x)) eqn:E; simpl; auto.
    now rewrite E, Hx.
Qed.

(** Pruning brings no tuple in. *)
Lemma tuple_free_delete_empty_values (v : PyVal) :
  tuple_free v = true -> tuple_free (delete_empty_values v) = true.
Proof.
  induction v as [| | | | | l IH | t _ | d IH] using PyVal_nested_ind;
    simpl; auto.
  - induction IH as [| x l Hx _ IHl]; simpl; auto.
    intros H. apply andb_prop in H as [Ha Hb].
    destruct (truthy (delete_empty_values x)); simpl; auto.
    now rewrite (Hx Ha), (IHl Hb).
  - induction IH as [| [k x] d Hx _ IHd]; simpl; auto.
    intros H. apply andb_prop in H as [Ha Hb]. simpl in Hx.
    destruct (truthy (delete_empty_values x)); simpl; auto.
    now rewrite (Hx Ha), (IHd Hb).
Qed.

(** Where there is no tuple, nothing is left out of sight. *)
Lemma all_inside_tuple_free (q : PyVal -> bool) (v : PyVal) :
  tuple_free v = true ->
  all_outside_tuples q v = true -> all_inside q v = true.
Proof.
  induction v as [| | | | | l IH | t _ | d IH] using PyVal_nested_ind;
    simpl; auto; try discriminate.
  - induction IH as [| x l Hx _ IHl]; simpl; auto.
    intros Hf H. apply andb_prop in Hf as [Hfa Hfb].
    apply andb_prop in H as [H1 H2]. apply andb_prop in H1 as [Ha Hb].
    now rewrite Ha, (Hx Hfa Hb), (IHl Hfb H2).
  - induction IH as [| [k x] d Hx _ IHd]; simpl; auto.
    intros Hf H. apply andb_prop in Hf as [Hfa Hfb]. simpl in Hx.
    apply andb_prop in H as [H1 H2]. apply andb_prop in H1 as [Ha Hb].
    now rewrite Ha, (Hx Hfa Hb), (IHd Hfb H2).
Qed.

Lemma tuple_free_dict_get (d : PyDict) (k : string) :
  tuple_free (PDict d) = true -> tuple_free (dict_get d k) = true.
Proof.
  unfold dict_get. induction d as [| [k' x] d IH]; simpl; auto.
  intros H. apply andb_prop in H as [Ha Hb].
  destruct (String.eqb k' k); auto.
Qed.





Lemma delete_empty_values_list_fix (l : list PyVal) :
  Forall (fun x => delete_empty_values (delete_empty_values x)
                   = delete_empty_values x) l ->
  filter truthy (map delete_empty_values
                   (filter truthy (map delete_empty_values l)))
  = filter truthy (map delete_empty_values l).
Proof.
  induction 1 as [| x l Hx _ IH]; simpl; auto.
  destruct (truthy (delete_empty_values x)) eqn:E; simpl; auto.
  now rewrite Hx, E, IH.
Qed.

Lemma delete_empty_values_dict_fix (d : PyDict) :
  Forall (fun kv => delete_empty_values (delete_empty_values (snd kv))
                    = delete_empty_values (snd kv)) d ->
  let prune := map (fun kv : string * PyVal =>
                      let '(k, v) := kv in (k, delete_empty_values v)) in
  let keep := filter (fun kv : string * PyVal => truthy (snd kv)) in
  keep (prune (keep (prune d))) = keep (prune d).
Proof.
  induction 1 as [| [k x] d Hx _ IH]; simpl in *; auto.
  destruct (truthy (delete_empty_values x)) eqn:E; simpl; auto.
  now rewrite Hx, E, IH.
Qed.


Lemma false_or_zero_pruned (v : PyVal) :
  is_false_or_zero v = true -> truthy (delete_empty_values v) = false.
Proof.
  destruct v as [| b | z | f | s | l | t | d]; simpl; try discriminate.
  - now destruct b.
  - now destruct (Z.eqb z 0).
  - now destruct (PrimFloat.eqb f 0).
Qed.



(** C5, as the code has it.  Whatever value is pruned, the result holds no
    empty string, no empty mapping, no empty sequence and no null as a list
    element or as a dict value reached through lists and dicts; a tuple is
    returned as it is, with all it holds.  Where the value holds no tuple,
    nothing empty is left at any depth.  So it is for the metadata of every
    event: nothing empty outside the tuples, and nothing empty at all when
    the result, the task fields and the version hold no tuple. *)
Theorem pruning_stops_at_tuples :
  (forall d, no_empty_outside_tuples (delete_empty_values d) = true)
  /\ (forall t, delete_empty_values (PTuple t) = PTuple t)
  /\ (forall d, tuple_free d = true ->
                no_empty_inside (delete_empty_values d) = true)
  /\ (forall self state result exectime,
         no_empty_outside_tuples (pruned_meta self state result exectime)
         = true)
  /\ (forall self state result exectime,
         tuple_free (PDict (_result result)) = true ->
         tuple_free (PDict (_task_fields result)) = true ->
         tuple_free (ansible_version self) = true ->
         no_empty_inside (pruned_meta self state result exectime) = true).
Proof.
  assert (H : forall d, no_empty_outside_tuples (delete_empty_values d) = true).
  { intros d. unfold no_empty_outside_tuples.
    apply all_outside_tuples_weaken with (p := truthy).
    - intros x Hx. now rewrite (truthy_not_empty x Hx).
    - apply delete_empty_values_truthy_outside_tuples. }
  assert (Hfree : forall d, tuple_free d = true ->
                            no_empty_inside (delete_empty_values d) = true).
  { intros d Hd. apply all_inside_tuple_free; [| apply H].
    now apply tuple_free_delete_empty_values. }
  split; [exact H |]. split; [reflexivity |]. split; [exact Hfree |].
  split; [intros; apply H |].
  intros self state result exectime Hr Ht Hv. apply Hfree.
  pose proof (tuple_free_dict_get (_result result) "changed" Hr) as Hc.
  unfold build_meta. cbn [dict_set String.eqb Ascii.eqb Bool.eqb].
  cbn [tuple_free forallb] in *. rewrite Hc, Hr, Ht, Hv.
  now destruct (_role (_task result)).
Qed.

Lemma pruning_stops_at_tuples_witness :
  no_empty_inside (pruned_meta sample_endpoint "OK" unchanged_result 2.5)
  = true.
Proof.
  exact (proj2 (proj2 (proj2 (proj2 pruning_stops_at_tuples)))
           sample_endpoint "OK" unchanged_result 2.5%float
           eq_refl eq_refl eq_refl).
Defined.

(** C5, as the claim has it, fails: the items of a loop over a zipped list
    are tuples, and the empty string, the null and the empty list of such a
    tuple are still in the pruned metadata. *)
Lemma tuple_keeps_empty_values :
  delete_empty_values (PList [PTuple [PStr "web01"; PStr ""; PNone; PList []]])
  = PList [PTuple [PStr "web01"; PStr ""; PNone; PList []]]
  /\ py_get (pruned_meta sample_endpoint "OK" zipped_result 2.5)
            "ansible_result"
     = Ok (PDict [("changed", PBool true);
                  ("item", PTuple [PStr "web01"; PStr ""; PNone; PList []])])
  /\ no_empty_inside (pruned_meta sample_endpoint "OK" zipped_result 2.5)
     = false.
Proof. repeat split; vm_compute; reflexivity. Qed.

(** C6.  Pruning is idempotent: pruning a pruned value changes nothing. *)
Theorem delete_empty_values_idempotent (d : PyVal) :
  delete_empty_values (delete_empty_values d) = delete_empty_values d.
Proof.
  induction d as [| | | | | l IH | t _ | kvs IH] using PyVal_nested_ind; auto.
  - cbn [delete_empty_values]. f_equal.
    now apply delete_empty_values_list_fix.
  - cbn [delete_empty_values]. f_equal.
    now apply (delete_empty_values_dict_fix kvs).
Qed.



(** * Host identity *)

(** C7.  For the node identifier [0xaabbccddeeff] the address computed is
    [aa:ab:bb:bc:cc:cd]: the slices start at the indexes 0 to 5 and overlap,
    where the six octets are [aa:bb:cc:dd:ee:ff]. *)
Theorem get_hwaddr_slices_overlap :
  get_hwaddr 0xaabbccddeeff = "aa:ab:bb:bc:cc:cd"
  /\ hwaddr_octets 0xaabbccddeeff = "aa:bb:cc:dd:ee:ff".
Proof. split; vm_compute; reflexivity. Qed.

(** * The timestamp *)

Lemma timestamp_of_without_facts (_result : PyDict) (iso_now : string) :
  truthy (dict_get _result "ansible_facts") = false ->
  timestamp_of _result iso_now = Ok (PStr iso_now).
Proof. unfold timestamp_of. now intros ->. Qed.

Lemma timestamp_of_iso8601 (_result facts date_time : PyDict)
    (iso_now : string) :
  dict_lookup _result "ansible_facts" = Some (PDict facts) ->
  facts <> [] ->
  dict_lookup facts "ansible_date_time" = Some (PDict date_time) ->
  timestamp_of _result iso_now = Ok (dict_get date_time "iso8601").
Proof.
  intros H1 Hne H2. unfold timestamp_of, dict_get. rewrite H1.
  destruct facts as [| kv facts]; [congruence |]. cbn [truthy].
  cbn [py_get bind]. unfold dict_get. now rewrite H2.
Qed.

(** C1.  The result of a task that sets facts of its own carries
    [ansible_facts] without [ansible_date_time]: the event raises
    [AttributeError] and nothing is sent.  With the date of the target but
    no [iso8601] entry the timestamp sent is [None].  Only a result without
    facts gets the current time, and a result with the nested value gets
    that value. *)
Theorem timestamp_fails_without_nested_date (B : Builtins) :
  snd (_handle_event sample_callback sample_clock "OK" set_fact_result)
  = Err AttributeError
  /\ timestamp_of (_result set_fact_result) (strftime_iso sample_now)
     = Err AttributeError
  /\ timestamp_of (_result partial_date_result) (strftime_iso sample_now)
     = Ok PNone
  /\ timestamp_of (_result changed_result) (strftime_iso sample_now)
     = Ok (PStr "2021-03-04T10:00:02Z")
  /\ timestamp_of (_result dated_result) (strftime_iso sample_now)
     = Ok (PStr "2021-01-01T00:00:00Z").
Proof. repeat split; vm_compute; reflexivity. Qed.

(** * The request *)

(** What [send_logdna] returns when the request is made. *)
Lemma send_logdna_ok (B : Builtins) self c t u state result exectime req :
  snd (send_logdna self c t u state result exectime) = Ok req ->
  exists self' timestamp line,
    req =
    {| request_host := conf_host c;
       request_endpoint := conf_endpoint c;
       request_params :=
         (let p := [("hostname", effective_hostname (conf_hostname c) result);
                    ("now", PFloat t)] in
          if opt_truthy (conf_tags c)
          then dict_set p "tags" (opt_val (conf_tags c)) else p);
       request_json :=
         PDict
           [("lines",
             PList
               [PDict
                  (let e0 := [("line", PStr line); ("timestamp", timestamp);
                              ("app", opt_val (conf_appname c));
                              ("meta", pruned_meta self' state result exectime)] in
                   let e1 := if negb (opt_truthy (conf_disable_loglevel c))
                             then dict_set e0 "level" (PStr (loglevel state))
                             else e0 in
                   let e2 := if opt_truthy (conf_ip_addr c)
                             then dict_set e1 "ip" (opt_val (conf_ip_addr c))
                             else e1 in
                   if opt_truthy (conf_mac_addr c)
                   then dict_set e2 "mac" (opt_val (conf_mac_addr c))
                   else e2)])];
       force_basic_auth := true;
       headers := [("content-type", PStr "application/json; charset=UTF-8")];
       http_agent := "ansible-callback/2.0";
       method := "POST";
       timeout := conf_timeout c;
       url_username := conf_ingestion_key c;
       validate_certs := true |}.
Proof.
  unfold send_logdna.
  destruct (dict_item (_task_fields result) "args") as [args | e];
    [| discriminate].
  destruct (py_get args "_ansible_check_mode") as [cm | e]; [| discriminate].
  destruct (py_get args "_ansible_version") as [ver | e]; [| discriminate].
  cbn [snd]. unfold build_request.
  match goal with
  | |- context [build_request] => idtac
  | |- context [timestamp_of ?r ?n] =>
      destruct (timestamp_of r n) as [ts | e]; [| discriminate]
  end.
  cbn [bind].
  match goal with
  | |- context [log_message ?c ?m ?r] =>
      destruct (log_message c m r) as [line | e]; [| discriminate]
  end.
  cbn [bind]. intros H. injection H as <-.
  eexists _, ts, line. reflexivity.
Qed.

Lemma loglevel_unknown (state : string) :
  state <> "OK" -> state <> "SKIPPED" -> state <> "FAILED" ->
  state <> "UNREACHABLE" -> loglevel state = "UNKNOWN".
Proof.
  intros H1 H2 H3 H4. unfold loglevel, loglevels. cbn [assoc_get].
  repeat match goal with
         | |- context [String.eqb ?a state] =>
             destruct (String.eqb_spec a state); [congruence |]
         end.
  reflexivity.
Qed.

(** C8.  In the request of a delivered event the line carries
    [level = loglevels.get(state, 'UNKNOWN')] when the option that disables
    log levels is unset or empty, and no [level] key when it is set; the
    level is INFO for OK, WARN for SKIPPED, ERROR for FAILED, WARN for
    UNREACHABLE and UNKNOWN for any other status. *)
Theorem level_follows_status (B : Builtins) self c t u state result exectime
    req :
  snd (send_logdna self c t u state result exectime) = Ok req ->
  dict_lookup (request_line req) "level"
  = (if opt_truthy (conf_disable_loglevel c) then None
     else Some (PStr (loglevel state)))
  /\ loglevel "OK" = "INFO" /\ loglevel "SKIPPED" = "WARN"
  /\ loglevel "FAILED" = "ERROR" /\ loglevel "UNREACHABLE" = "WARN"
  /\ (state <> "OK" -> state <> "SKIPPED" -> state <> "FAILED" ->
      state <> "UNREACHABLE" -> loglevel state = "UNKNOWN").
Proof.
  intros H. destruct (send_logdna_ok _ _ _ _ _ _ _ _ _ H)
    as [self' [ts [line ->]]].
  split; [| repeat split; try reflexivity; apply loglevel_unknown].
  unfold request_line. cbn [request_json dict_lookup String.eqb Ascii.eqb Bool.eqb].
  destruct (opt_truthy (conf_disable_loglevel c));
    destruct (opt_truthy (conf_ip_addr c));
    destruct (opt_truthy (conf_mac_addr c)); reflexivity.
Qed.

Lemma level_follows_status_witness :
  dict_lookup
    (request_line
       {| request_host := Some "logs.logdna.com";
          request_endpoint := Some "/logs/ingest";
          request_params :=
            [("hostname", PStr "runner"); ("now", PFloat 1614852002.5)];
          request_json :=
            PDict
              [("lines",
                PList
                  [PDict
                     [("line", PStr "FAILED web01");
                      ("timestamp", PStr "2021-03-04T10:00:02Z");
                      ("app", PStr "ansible");
                      ("meta",
                       pruned_meta sample_endpoint "FAILED" changed_result 2.5);
                      ("level", PStr "ERROR"); ("ip", PStr "192.0.2.10");
                      ("mac", PStr "aa:ab:bb:bc:cc:cd")]])];
          force_basic_auth := true;
          headers := [("content-type", PStr "application/json; charset=UTF-8")];
          http_agent := "ansible-callback/2.0";
          method := "POST";
          timeout := PInt 5;
          url_username := Some "0123456789abcdef";
          validate_certs := true |}) "level"
  = Some (PStr "ERROR").
Proof.
  exact (proj1 (@level_follows_status scalar_builtins sample_endpoint
                  (conf (set_options initial_callback
                           (format_options "{status} {host}") sample_system))
                  1614852002.5%float sample_now "FAILED" changed_result
                  2.5%float _ eq_refl)).
Defined.

Lemma handle_event_sent (B : Builtins) self clock status result req :
  snd (_handle_event self clock status result) = Ok (Some req) ->
  ignored self status result = false
  /\ exists exectime,
       snd (send_logdna (logdna_callback self) (conf self) (send_time clock)
                        (send_utcnow clock) status result exectime) = Ok req.
Proof.
  unfold _handle_event.
  destruct (ignored self status result); cbn [negb snd]; [discriminate |].
  destruct (_execution_timer self (timer_utcnow clock) result)
    as [exectime | e]; [| discriminate].
  destruct (send_logdna (logdna_callback self) (conf self) (send_time clock)
              (send_utcnow clock) status result exectime)
    as [endpoint [r | e]] eqn:E; cbn [snd]; [| discriminate].
  intros H. injection H as ->. split; [reflexivity |].
  exists exectime. now rewrite E.
Qed.

(** C9, as the code has it.  When the target host is asked for, the hostname
    of the request is the configured [logdna_hostname] if there is one, and
    the host of the event otherwise; when it is not asked for, it is the
    hostname of the runner (the host of the event if that is empty). *)
Theorem hostname_parameter (B : Builtins) self o sys clock status result req :
  snd (_handle_event (set_options self o sys) clock status result)
  = Ok (Some req) ->
  dict_lookup (request_params req) "hostname"
  = Some (hostname_by_options o sys result).
Proof.
  intros H. apply handle_event_sent in H as [_ [exectime H]].
  destruct (send_logdna_ok _ _ _ _ _ _ _ _ _ H) as [self' [ts [line ->]]].
  cbn [request_params].
  assert (E : effective_hostname (conf_hostname (conf (set_options self o sys)))
                                 result
              = hostname_by_options o sys result).
  { unfold effective_hostname, hostname_by_options.
    cbn [set_options conf conf_hostname].
    destruct (opt_truthy (logdna_use_target_host_for_hostname o));
      cbn [negb].
    - destruct (opt_truthy (logdna_hostname o)); reflexivity.
    - unfold opt_truthy. cbn [opt_val truthy].
      destruct (String.eqb (get_local_hostname (gethostname sys)) "");
        reflexivity. }
  rewrite E.
  destruct (opt_truthy (conf_tags (conf (set_options self o sys))));
    reflexivity.
Qed.

Lemma hostname_parameter_witness :
  exists req,
    snd (@_handle_event scalar_builtins
           (set_options initial_callback sample_options sample_system)
           sample_clock "OK" changed_result) = Ok (Some req)
    /\ dict_lookup (request_params req) "hostname" = Some (PStr "runner").
Proof.
  eexists. split; [vm_compute; reflexivity |].
  exact (@hostname_parameter scalar_builtins initial_callback sample_options
           sample_system sample_clock "OK" changed_result _ eq_refl).
Defined.

(** C9, as the claim has it, fails: with the target host asked for and
    [logdna_hostname] set to [logs-gateway], the event of [web01] is sent
    with [hostname=logs-gateway]. *)
Lemma hostname_override_beats_target_host :
  exists req,
    snd (@_handle_event scalar_builtins
           (set_options initial_callback override_options sample_system)
           sample_clock "OK" changed_result) = Ok (Some req)
    /\ opt_truthy (logdna_use_target_host_for_hostname override_options)
       = true
    /\ name (_host changed_result) = "web01"
    /\ dict_lookup (request_params req) "hostname"
       = Some (PStr "logs-gateway").
Proof.
  eexists. split; [vm_compute; reflexivity |]. repeat split.
Qed.

(** * Ignored events *)

(** A role object is equal to no string. *)
Lemma role_in_no_list (r : option Role) (l : list string) :
  py_in (role_obj r) l = false.
Proof.
  unfold py_in. induction l as [| s l IH]; auto.
  cbn [existsb]. rewrite IH. now destruct r.
Qed.

(** What the test of [_handle_event] amounts to. *)
Lemma ignored_spec (self : CallbackModule) (status : string)
    (result : TaskResult) :
  ignored self status result
  = py_in (OVal (dict_get (_task_fields result) "action"))
          (conf_ignore_actions self)
    || py_in (OVal (PStr (ansible_playbook (logdna_callback self))))
             (conf_ignore_plays self)
    || py_in (OVal (PStr (lower status))) (conf_ignore_statuses self).
Proof.
  unfold ignored. rewrite role_in_no_list. now rewrite orb_false_r.
Qed.

(** An ignored event changes nothing and sends nothing. *)
Lemma ignored_event_is_dropped (B : Builtins) self clock status result :
  ignored self status result = true ->
  _handle_event self clock status result = (self, Ok None).
Proof. unfold _handle_event. now intros ->. Qed.

Lemma empty_ignore_lists_match_nothing (x : PyObj) : py_in x [] = false.
Proof. reflexivity. Qed.

(** C4.  With [conf_ignore_role_names = nginx], the event of a task of the
    role [nginx] is not ignored: the request is made.  The status and the
    action lists do ignore: with [Skipped,OK] and [debug,setup] configured,
    the same OK event changes nothing and sends nothing. *)
Theorem ignored_role_is_still_sent :
  conf_ignore_roles
    (set_options initial_callback ignore_role_options sample_system)
  = ["nginx"]
  /\ _role (_task changed_result) = Some {| role_name := "nginx" |}
  /\ ignored (set_options initial_callback ignore_role_options sample_system)
             "OK" changed_result = false
  /\ (exists req,
         snd (@_handle_event scalar_builtins
                (set_options initial_callback ignore_role_options
                             sample_system)
                sample_clock "OK" changed_result) = Ok (Some req))
  /\ @_handle_event scalar_builtins
       (set_options initial_callback ignore_status_options sample_system)
       sample_clock "OK" changed_result
     = (set_options initial_callback ignore_status_options sample_system,
        Ok None).
Proof.
  repeat split; try (vm_compute; reflexivity).
  eexists. vm_compute. reflexivity.
Qed.

(** * The parser terminates within its fuel *)

Lemma scan_literal_length (s : string) :
  String.length s
  = (String.length (fst (scan_literal s))
     + match snd (scan_literal s) with
       | None => 0
       | Some (_, r) => S (String.length r)
       end)%nat.
Proof.
  induction s as [| c r IH]; auto.
  cbn [scan_literal].
  destruct (Ascii.eqb c "{" || Ascii.eqb c "}"); cbn; auto.
  destruct (scan_literal r) as [text b]. cbn in *. lia.
Qed.

Lemma scan_name_length (s : string) :
  forall in_bracket name c rest,
    scan_name in_bracket s = Ok (Some (name, c, rest)) ->
    (String.length rest < String.length s)%nat.
Proof.
  induction s as [| a r IH]; intros ib name c rest; cbn [scan_name].
  - discriminate.
  - assert (Hcons : forall ib',
               cons_name a (scan_name ib' r) = Ok (Some (name, c, rest)) ->
               (String.length rest < String.length (String a r))%nat).
    { intros ib' H. unfold cons_name in H.
      destruct (scan_name ib' r) as [[[[n t] rs] |] | e] eqn:E;
        try discriminate.
      injection H as _ _ <-. specialize (IH _ _ _ _ E). cbn. lia. }
    destruct ib; [apply Hcons |].
    destruct (Ascii.eqb a "{"); [discriminate |].
    destruct (Ascii.eqb a "["); [apply Hcons |].
    destruct (Ascii.eqb a "}" || Ascii.eqb a ":" || Ascii.eqb a "!");
      [| apply Hcons].
    intros H. injection H as _ _ <-. cbn. lia.
Qed.

Lemma scan_spec_length (s : string) :
  forall open spec rest,
    scan_spec open s = Some (spec, rest) ->
    (String.length rest < String.length s)%nat.
Proof.
  induction s as [| a r IH]; intros open spec rest; cbn [scan_spec].
  - discriminate.
  - assert (Hcons : forall n,
               cons_spec a (scan_spec n r) = Some (spec, rest) ->
               (String.length rest < String.length (String a r))%nat).
    { intros n H. unfold cons_spec in H.
      destruct (scan_spec n r) as [[sp rs] |] eqn:E; try discriminate.
      injection H as _ <-. specialize (IH _ _ _ E). cbn. lia. }
    destruct (Ascii.eqb a "{"); [apply Hcons |].
    destruct (Ascii.eqb a "}"); [| apply Hcons].
    destruct open; [| apply Hcons].
    intros H. injection H as _ <-. cbn. lia.
Qed.

Lemma parse_spec_length name conv s f rest :
  parse_spec name conv s = Ok (f, rest) ->
  (String.length rest < String.length s)%nat.
Proof.
  unfold parse_spec. destruct (scan_spec 0 s) as [[spec r] |] eqn:E;
    [| discriminate].
  intros H. injection H as _ <-. eapply scan_spec_length; eauto.
Qed.

Lemma parse_field_length (s : string) f rest :
  parse_field s = Ok (f, rest) ->
  (String.length rest < String.length s)%nat.
Proof.
  unfold parse_field.
  destruct (scan_name false s) as [[[[name c] r] |] | e] eqn:E;
    try discriminate.
  apply scan_name_length in E.
  destruct (Ascii.eqb c "}").
  { intros H. injection H as _ <-. exact E. }
  destruct (Ascii.eqb c "!").
  - destruct r as [| cv [| c2 r2]]; try discriminate.
    destruct (Ascii.eqb c2 "}").
    { intros H. injection H as _ <-. cbn in *. lia. }
    destruct (Ascii.eqb c2 ":"); [| discriminate].
    intros H. apply parse_spec_length in H. cbn in *. lia.
  - intros H. apply parse_spec_length in H. lia.
Qed.

Lemma markup_next_length (s : string) it rest :
  markup_next s = Ok (Some (it, rest)) ->
  (String.length rest < String.length s)%nat.
Proof.
  unfold markup_next. destruct s as [| a s']; [discriminate |].
  pose proof (scan_literal_length (String a s')) as L.
  destruct (scan_literal (String a s')) as [text [[c [| c' r']] |]];
    cbn [fst snd] in L.
  - destruct (Ascii.eqb c "}"); discriminate.
  - destruct (Ascii.eqb c "}" && negb (Ascii.eqb c' "}")); [discriminate |].
    destruct (Ascii.eqb c c').
    + intros H. injection H as _ <-. rewrite L. cbn. lia.
    + destruct (parse_field (String c' r')) as [[f rs] | e] eqn:E;
        [| discriminate].
      intros H. injection H as _ <-. apply parse_field_length in E.
      rewrite L. cbn in *. lia.
  - intros H. injection H as _ <-. cbn. lia.
Qed.

(** Any fuel above the length of the template gives the same parse. *)
Lemma parse_aux_enough_fuel (fuel : nat) :
  forall fuel' s,
    (String.length s < fuel)%nat -> (String.length s < fuel')%nat ->
    parse_aux fuel s = parse_aux fuel' s.
Proof.
  induction fuel as [| fuel IH]; intros fuel' s H1 H2; [lia |].
  destruct fuel' as [| fuel']; [lia |].
  cbn [parse_aux].
  destruct (markup_next s) as [[[it rest] |] | e] eqn:E; auto.
  apply markup_next_length in E.
  rewrite (IH fuel' rest) by lia. reflexivity.
Qed.

Lemma parse_enough_fuel (fuel : nat) (s : string) :
  (String.length s < fuel)%nat -> parse_aux fuel s = parse s.
Proof. intros H. apply parse_aux_enough_fuel; [exact H | lia]. Qed.

(** * The formatter *)



Section FormatterFacts.
Context {B : Builtins}.


(** The first replacement field decides: when numbering it or looking it up
    raises, the loop raises the same. *)
Lemma render_items_first_field expand kwargs items f rest e :
  fields_of items = f :: rest ->
  forall acc auto,
    match auto_number (field_name f) auto with
    | Err e' => Err e'
    | Ok (name, _) => get_field name kwargs
    end = Err e ->
    render_items expand kwargs items acc auto = Err e.
Proof.
  induction items as [| [lit [f' |]] items IH]; cbn [fields_of render_items].
  - discriminate.
  - intros H acc auto. injection H as -> _.
    destruct (auto_number (field_name f) auto) as [[name auto1] | e'].
    + now intros ->.
    + intros H. injection H as ->. reflexivity.
  - intros H acc auto. apply IH. exact H.
Qed.




Lemma format_first_field format_string kwargs f rest e :
  fields_of (fst (parse format_string)) = f :: rest ->
  match auto_number (field_name f) (AutoIndex 0) with
  | Err e' => Err e'
  | Ok (name, _) => get_field name kwargs
  end = Err e ->
  format format_string kwargs = Err e.
Proof.
  intros Hf He. unfold format. cbn [_vformat].
  destruct (parse format_string) as [items syntax_error]. cbn [fst] in Hf.
  now rewrite (render_items_first_field _ kwargs items f rest e Hf "" _ He).
Qed.

(** A syntax error of the template is raised once the items before it are
    rendered. *)
Lemma format_syntax_error format_string kwargs e :
  snd (parse format_string) = Some e ->
  exists e', format format_string kwargs = Err e'.
Proof.
  intros H. unfold format. cbn [_vformat].
  destruct (parse format_string) as [items syntax_error]. cbn [snd] in H.
  subst syntax_error.
  destruct (render_items _ kwargs items "" (AutoIndex 0)) as [[s a] | e'];
    eauto.
Qed.

Lemma dict_lookup_not_key (d : PyDict) (k : string) :
  existsb (String.eqb k) (dict_keys d) = false -> dict_lookup d k = None.
Proof.
  unfold dict_keys. induction d as [| [k' v] d IH]; cbn; auto.
  rewrite (String.eqb_sym k k'). destruct (String.eqb k' k); cbn; auto.
  discriminate.
Qed.

(** The first field, when bound to nothing, raises its lookup error. *)
Lemma first_lookup_error (name : string) (kwargs : PyDict) :
  unsafe_name name = false ->
  dict_lookup kwargs name = None ->
  match auto_number name (AutoIndex 0) with
  | Err e' => Err e'
  | Ok (name', _) => get_field name' kwargs
  end = Err (lookup_error name).
Proof.
  intros Hu Hk. unfold auto_number, lookup_error.
  destruct (String.eqb name "") eqn:E0.
  - reflexivity.
  - destruct (isdigit name) eqn:Ed; cbn [N.eqb]; unfold get_field, get_value;
      rewrite Hu, Ed.
    + destruct (PY_SSIZE_T_MAX <? digits_value name)%N; reflexivity.
    + unfold dict_item. now rewrite Hk.
Qed.

(** The metadata binds [ansible_task] to the task fields only. *)
Lemma build_meta_task self state result exectime v :
  In ("ansible_task", v) (build_meta self state result exectime) ->
  v = PDict (_task_fields result).
Proof.
  unfold build_meta. cbn [dict_set String.eqb Ascii.eqb Bool.eqb].
  intros H. cbn [In] in H.
  repeat (destruct H as [H | H]; [inversion H; subst; reflexivity |]).
  destruct H.
Qed.

Lemma dict_lookup_pruned (d : PyDict) (k : string) (x : PyVal) :
  dict_lookup
    (filter (fun kv : string * PyVal => truthy (snd kv))
       (map (fun kv : string * PyVal =>
               let '(k0, v) := kv in (k0, delete_empty_values v)) d)) k
  = Some x ->
  exists v, In (k, v) d /\ x = delete_empty_values v.
Proof.
  induction d as [| [k' v] d IH]; cbn; [discriminate |].
  destruct (truthy (delete_empty_values v)); cbn.
  - destruct (String.eqb_spec k' k) as [-> | _].
    + intros H. injection H as <-. eauto.
    + intros H. destruct (IH H) as [w [Hin Hw]]. eauto.
  - intros H. destruct (IH H) as [w [Hin Hw]]. eauto.
Qed.

(** On the pruned metadata no lookup of [log_message] fails: the line is
    what the formatter makes of the template and the seven fields. *)
Lemma log_message_formats c self state result exectime :
  exists kwargs,
    dict_keys kwargs = fixed_fields
    /\ log_message c (pruned_meta self state result exectime) result
       = (text <- format
                    (if opt_truthy (conf_log_fmt c)
                     then match conf_log_fmt c with
                          | Some f => f
                          | None => ""
                          end
                     else default_log_fmt) kwargs ;;
          Ok (strip text)).
Proof.
  unfold log_message, pruned_meta.
  cbn [delete_empty_values py_get py_get_default bind].
  match goal with
  | |- context [dict_lookup ?l "ansible_task"] =>
      destruct (dict_lookup l "ansible_task") as [x |] eqn:E
  end.
  - apply dict_lookup_pruned in E as [v [Hin ->]].
    apply build_meta_task in Hin. subst v.
    cbn [delete_empty_values py_get bind].
    eexists. split; [| reflexivity]. reflexivity.
  - cbn [py_get bind]. eexists. split; [| reflexivity]. reflexivity.
Qed.

Lemma send_logdna_format_error self c t u state result exectime fmt :
  conf_log_fmt c = Some fmt ->
  fmt <> "" ->
  (forall kwargs, dict_keys kwargs = fixed_fields ->
                  exists e, format fmt kwargs = Err e) ->
  exists e, snd (send_logdna self c t u state result exectime) = Err e.
Proof.
  intros Hfmt Hne Hraise. unfold send_logdna.
  destruct (dict_item (_task_fields result) "args") as [args | e];
    [| cbn; eauto].
  destruct (py_get args "_ansible_check_mode") as [cm | e]; [| cbn; eauto].
  destruct (py_get args "_ansible_version") as [ver | e]; [| cbn; eauto].
  cbn [snd]. unfold build_request.
  match goal with
  | |- context [timestamp_of ?r ?n] =>
      destruct (timestamp_of r n) as [ts | e]; cbn [bind]; [| eauto]
  end.
  match goal with
  | |- context [log_message c (pruned_meta ?s state result exectime) result] =>
      destruct (log_message_formats c s state result exectime)
        as [kwargs [Hkeys ->]]
  end.
  assert (Ht : opt_truthy (conf_log_fmt c) = true).
  { rewrite Hfmt. unfold opt_truthy. cbn.
    destruct (String.eqb_spec fmt ""); [contradiction | reflexivity]. }
  rewrite Ht, Hfmt.
  destruct (Hraise kwargs Hkeys) as [e ->]. cbn [bind]. eauto.
Qed.

End FormatterFacts.


Lemma first_field_not_empty (fmt : string) (f : Field) (rest : list Field) :
  fields_of (fst (parse fmt)) = f :: rest -> fmt <> "".
Proof. intros H ->. discriminate H. Qed.


Lemma vformat_step (B : Builtins) depth kwargs format_string auto :
  _vformat (S depth) kwargs format_string auto
  = (let '(items, syntax_error) := parse format_string in
     match render_items (_vformat depth kwargs) kwargs items "" auto with
     | Err e => Err e
     | Ok r =>
         match syntax_error with
         | Some e => Err e
         | None => Ok r
         end
     end).
Proof. reflexivity. Qed.





(** C2, as the code has it.  A template whose first placeholder has a name
    outside the seven fields, without [.], [[] or [(], is not rendered:
    [format] raises [KeyError] for a name, [IndexError] for an empty or
    numeric one ([ValueError] when the number is too long), and
    [send_logdna] raises before [open_url]. *)
Theorem unknown_placeholder_raises (B : Builtins) fmt f rest :
  fields_of (fst (parse fmt)) = f :: rest ->
  unsafe_name (field_name f) = false ->
  existsb (String.eqb (field_name f)) fixed_fields = false ->
  (forall kwargs,
      dict_keys kwargs = fixed_fields ->
      format fmt kwargs = Err (lookup_error (field_name f)))
  /\ (forall self c t u state result exectime,
         conf_log_fmt c = Some fmt ->
         exists e, snd (send_logdna self c t u state result exectime) = Err e).
Proof.
  intros Hf Hu Hout.
  assert (Hfmt : forall kwargs,
             dict_keys kwargs = fixed_fields ->
             format fmt kwargs = Err (lookup_error (field_name f))).
  { intros kwargs Hkeys.
    apply format_first_field with (f := f) (rest := rest); auto.
    apply first_lookup_error; auto.
    apply dict_lookup_not_key. now rewrite Hkeys. }
  split; [exact Hfmt |].
  intros self c t u state result exectime Hc.
  apply send_logdna_format_error with (fmt := fmt); auto.
  - now apply first_field_not_empty with (f := f) (rest := rest).
  - intros kwargs Hkeys. rewrite (Hfmt kwargs Hkeys). eauto.
Qed.

Lemma unknown_placeholder_raises_witness :
  @format scalar_builtins "task={task} on {node}" sample_kwargs
  = Err (KeyError "task").
Proof.
  exact (proj1 (@unknown_placeholder_raises scalar_builtins
                  "task={task} on {node}" _ _ eq_refl eq_refl eq_refl)
           sample_kwargs eq_refl).
Defined.

(** C2, as the claim has it, fails: the placeholders [{task}] and [{node}]
    are not rendered as empty strings; the formatter raises [KeyError] on
    the first, an empty placeholder raises [IndexError], and the event
    makes no request. *)
Lemma unknown_placeholder_is_not_rendered_empty :
  @format scalar_builtins "task={task} on {node}" sample_kwargs
  = Err (KeyError "task")
  /\ @format scalar_builtins "{} done" sample_kwargs = Err IndexError
  /\ snd (@_handle_event scalar_builtins
            (set_options initial_callback
               (format_options "task={task} on {node}") sample_system)
            sample_clock "OK" changed_result)
     = Err (KeyError "task").
Proof. repeat split; vm_compute; reflexivity. Qed.


(** * The hostname of the runner *)

Lemma prefix_nil (s : string) : String.prefix "" s = true.
Proof. now destruct s. Qed.

Lemma prefix_cons (a b : ascii) (s t : string) :
  String.prefix (String a s) (String b t)
  = Ascii.eqb a b && String.prefix s t.
Proof.
  cbn [String.prefix]. destruct (Ascii.eqb_spec a b) as [-> | N].
  - destruct (ascii_dec b b); [reflexivity | contradiction].
  - destruct (ascii_dec a b); [contradiction | reflexivity].
Qed.

Lemma prefix_trans (s : string) :
  forall t u, String.prefix s t = true -> String.prefix t u = true ->
              String.prefix s u = true.
Proof.
  induction s as [| a s IH]; intros t u H1 H2; [apply prefix_nil |].
  destruct t as [| b t]; [discriminate |].
  destruct u as [| c u]; [discriminate |].
  rewrite prefix_cons in *.
  apply andb_prop in H1 as [E1 P1]. apply andb_prop in H2 as [E2 P2].
  apply Ascii.eqb_eq in E1, E2. subst.
  rewrite Ascii.eqb_refl. cbn. eauto.
Qed.

Lemma before_first_prefix (sep s : string) :
  String.prefix (before_first sep s) s = true.
Proof.
  induction s as [| c r IH]; cbn [before_first].
  - destruct (String.prefix sep ""); reflexivity.
  - destruct (String.prefix sep (String c r)); [apply prefix_nil |].
    rewrite prefix_cons, Ascii.eqb_refl. exact IH.
Qed.

Lemma before_first_no_occurrence (sep s : string) :
  sep <> "" -> occurs sep (before_first sep s) = false.
Proof.
  intros Hsep. induction s as [| c r IH]; cbn [before_first].
  - destruct (String.prefix sep "") eqn:E; cbn [occurs]; rewrite orb_false_r.
    + destruct sep; [contradiction | discriminate].
    + destruct sep; [contradiction | reflexivity].
  - destruct (String.prefix sep (String c r)) eqn:E.
    + cbn [occurs]. rewrite orb_false_r.
      destruct sep; [contradiction | reflexivity].
    + cbn [occurs]. rewrite IH, orb_false_r.
      destruct (String.prefix sep (String c (before_first sep r))) eqn:E';
        [| reflexivity].
      rewrite (prefix_trans sep _ (String c r) E') in E; [discriminate |].
      rewrite prefix_cons, Ascii.eqb_refl. apply before_first_prefix.
Qed.

Lemma before_first_unchanged (sep s : string) :
  occurs sep s = false -> before_first sep s = s.
Proof.
  induction s as [| c r IH]; cbn [before_first occurs]; intros H;
    apply orb_false_elim in H as [H1 H2]; rewrite H1; [reflexivity |].
  now rewrite IH.
Qed.

Lemma before_first_dotless (a rest : string) :
  mem_char "." a = false ->
  before_first ".local" (a ++ ".local" ++ rest) = a.
Proof.
  unfold mem_char. induction a as [| c a IH]; intros H.
  - cbn. now destruct rest.
  - cbn [list_ascii_of_string existsb] in H.
    apply orb_false_elim in H as [Hc Ha].
    change ((String c a ++ ".local" ++ rest)%string)
      with (String c (a ++ ".local" ++ rest)%string).
    cbn [before_first]. rewrite prefix_cons, Hc. cbn [andb].
    f_equal. apply IH. exact Ha.
Qed.

(** X1.  [get_local_hostname] answers a prefix of the system hostname in
    which [.local] does not occur; a hostname without [.local] is answered
    as it is, and a dotless name followed by [.local] and anything is cut
    down to the name. *)
Theorem get_local_hostname_cuts_local (gethostname : string) :
  String.prefix (get_local_hostname gethostname) gethostname = true
  /\ occurs ".local" (get_local_hostname gethostname) = false
  /\ (occurs ".local" gethostname = false ->
      get_local_hostname gethostname = gethostname)
  /\ (forall short rest,
         mem_char "." short = false ->
         gethostname = (short ++ ".local" ++ rest)%string ->
         get_local_hostname gethostname = short).
Proof.
  unfold get_local_hostname. repeat split.
  - apply before_first_prefix.
  - apply before_first_no_occurrence. discriminate.
  - apply before_first_unchanged.
  - intros short rest H ->. now apply before_first_dotless.
Qed.

Lemma get_local_hostname_cuts_local_witness :
  get_local_hostname "runner" = "runner"
  /\ get_local_hostname "runner.local.lan" = "runner".
Proof.
  split.
  - exact (proj1 (proj2 (proj2 (get_local_hostname_cuts_local "runner")))
             eq_refl).
  - exact (proj2 (proj2 (proj2 (get_local_hostname_cuts_local
                                  "runner.local.lan")))
             "runner" ".lan" eq_refl eq_refl).
Defined.

(** * The address of the runner *)

(** X2.  [get_ipaddr] answers what the resolver answers for the local
    hostname, and then opens no socket.  When the resolver raises and the
    socket is created, the function does not raise: it probes
    [10.255.255.255:1], answers the address of the socket, or [127.0.0.1]
    when connecting or reading the address raises, and closes the socket,
    once, as its last call. *)
Theorem get_ipaddr_falls_back_and_closes (net : HostProbe.Network)
    (hostname : string) :
  (forall ip,
      HostProbe.gethostbyname net (get_local_hostname hostname) = Some ip ->
      HostProbe.get_ipaddr net hostname
      = (Ok ip, [HostProbe.Resolve (get_local_hostname hostname)]))
  /\ (HostProbe.gethostbyname net (get_local_hostname hostname) = None ->
      HostProbe.socket net = None ->
      exists ip calls,
        HostProbe.get_ipaddr net hostname = (Ok ip, calls)
        /\ last calls (HostProbe.Resolve "") = HostProbe.Close
        /\ List.length (filter HostProbe.is_socket calls) = 1
        /\ List.length (filter HostProbe.is_close calls) = 1
        /\ In HostProbe.probe calls
        /\ (HostProbe.connect net = false \/ HostProbe.getsockname net = None ->
            ip = "127.0.0.1")
        /\ (forall a,
               HostProbe.connect net = true ->
               HostProbe.getsockname net = Some a -> ip = a)).
Proof.
  split.
  - intros ip H. unfold HostProbe.get_ipaddr. now rewrite H.
  - intros Hr Hs. unfold HostProbe.get_ipaddr. rewrite Hr, Hs.
    destruct (HostProbe.connect net);
      [destruct (HostProbe.getsockname net) as [a |] |];
      eexists _, _; (split; [reflexivity |]); cbn;
      repeat split; auto; try (intros [H | H]; congruence);
      try (intros b H1 H2; congruence).
Qed.

Lemma get_ipaddr_falls_back_and_closes_witness :
  fst (HostProbe.get_ipaddr offline_network "runner.local") = Ok "127.0.0.1"
  /\ fst (HostProbe.get_ipaddr sample_network "runner.local")
     = Ok "192.0.2.10".
Proof.
  split.
  - destruct (proj2 (get_ipaddr_falls_back_and_closes offline_network
                       "runner.local") eq_refl eq_refl)
      as [ip [calls [E [_ [_ [_ [_ [H _]]]]]]]].
    rewrite E. cbn [fst]. now rewrite (H (or_introl eq_refl)).
  - destruct (proj2 (get_ipaddr_falls_back_and_closes sample_network
                       "runner.local") eq_refl eq_refl)
      as [ip [calls [E [_ [_ [_ [_ [_ H]]]]]]]].
    rewrite E. cbn [fst]. now rewrite (H "192.0.2.10" eq_refl eq_refl).
Defined.

(** * What the request carries *)

Lemma length_append_s (s t : string) :
  String.length (s ++ t) = (String.length s + String.length t)%nat.
Proof. induction s as [| c s IH]; cbn; auto. Qed.

Lemma append_assoc_s (s t u : string) :
  ((s ++ t) ++ u = s ++ t ++ u)%string.
Proof. induction s as [| c s IH]; cbn; [reflexivity | now rewrite IH]. Qed.

Lemma append_nil_r_s (s : string) : (s ++ "" = s)%string.
Proof. induction s as [| c s IH]; cbn; [reflexivity | now rewrite IH]. Qed.

Lemma zeros_length (k : nat) : String.length (zeros k) = k.
Proof. induction k; cbn; auto. Qed.

Lemma zero_pad_length (width : nat) (s : string) :
  (width <= String.length (zero_pad width s))%nat.
Proof. unfold zero_pad. rewrite length_append_s, zeros_length. lia. Qed.

Lemma get_hwaddr_not_empty (node : N) : get_hwaddr node <> "".
Proof.
  unfold get_hwaddr.
  pose proof (zero_pad_length 12 (digits 16 node)) as L.
  set (mac := zero_pad 12 (digits 16 node)) in *.
  assert (H : (2 <= String.length mac / 2)%nat).
  { apply Nat.div_le_lower_bound; lia. }
  destruct (String.length mac / 2)%nat as [| [| k]]; try lia.
  cbn [seq map String.concat].
  destruct (substring 0 2 mac); discriminate.
Qed.

(** The keys of the line of a request, apart from [level]. *)
Lemma request_line_entries (B : Builtins) self c t u state result exectime
    req :
  snd (send_logdna self c t u state result exectime) = Ok req ->
  dict_lookup (request_line req) "ip"
  = (if opt_truthy (conf_ip_addr c) then Some (opt_val (conf_ip_addr c))
     else None)
  /\ dict_lookup (request_line req) "mac"
     = (if opt_truthy (conf_mac_addr c) then Some (opt_val (conf_mac_addr c))
        else None)
  /\ dict_lookup (request_line req) "app" = Some (opt_val (conf_appname c))
  /\ exists self' line,
       dict_lookup (request_line req) "line" = Some (PStr line)
       /\ log_message c (pruned_meta self' state result exectime) result
          = Ok line
       /\ dict_lookup (request_line req) "meta"
          = Some (pruned_meta self' state result exectime).
Proof.
  intros H. unfold send_logdna in H.
  destruct (dict_item (_task_fields result) "args") as [args | e];
    [| discriminate].
  destruct (py_get args "_ansible_check_mode") as [cm | e]; [| discriminate].
  destruct (py_get args "_ansible_version") as [ver | e]; [| discriminate].
  cbn [snd] in H. unfold build_request in H.
  match type of H with
  | context [timestamp_of ?r ?n] =>
      destruct (timestamp_of r n) as [ts | e]; [| discriminate]
  end.
  cbn [bind] in H.
  match type of H with
  | context [log_message ?c ?m ?r] =>
      destruct (log_message c m r) as [line | e] eqn:El; [| discriminate]
  end.
  cbn [bind] in H. injection H as <-.
  unfold request_line.
  cbn [request_json dict_lookup String.eqb Ascii.eqb Bool.eqb].
  repeat split.
  1-3: destruct (opt_truthy (conf_disable_loglevel c));
    destruct (opt_truthy (conf_ip_addr c));
    destruct (opt_truthy (conf_mac_addr c)); reflexivity.
  eexists _, line. split; [| split; [exact El |]];
    destruct (opt_truthy (conf_disable_loglevel c));
    destruct (opt_truthy (conf_ip_addr c));
    destruct (opt_truthy (conf_mac_addr c)); reflexivity.
Qed.

Lemma address_option_truthy (o : option string) (detected : string) :
  opt_val (address_option o detected)
  = match o with
    | None => PStr detected
    | Some s => if String.prefix "disable" (lower s) then PNone else PStr s
    end.
Proof.
  unfold address_option. destruct o as [s |]; [| reflexivity].
  now destruct (String.prefix "disable" (lower s)).
Qed.

(** X3.  In the request of a delivered event, the line has no [mac] key when
    the option [logdna_mac_address] starts with [disable] in any letter
    case, carries the option when it is another text, and carries the
    address computed by [get_hwaddr] when the option is unset; the [ip] key
    follows [logdna_ip_address] in the same way, with the detected address
    of the runner. *)
Theorem address_keys_follow_options (B : Builtins) self o sys clock status
    result req :
  snd (_handle_event (set_options self o sys) clock status result)
  = Ok (Some req) ->
  (forall s, logdna_mac_address o = Some s ->
             String.prefix "disable" (lower s) = true ->
             dict_lookup (request_line req) "mac" = None)
  /\ (forall s, logdna_mac_address o = Some s ->
                String.prefix "disable" (lower s) = false -> s <> "" ->
                dict_lookup (request_line req) "mac" = Some (PStr s))
  /\ (logdna_mac_address o = None ->
      dict_lookup (request_line req) "mac"
      = Some (PStr (get_hwaddr (getnode sys))))
  /\ (forall s, logdna_ip_address o = Some s ->
                String.prefix "disable" (lower s) = true ->
                dict_lookup (request_line req) "ip" = None)
  /\ (forall s, logdna_ip_address o = Some s ->
                String.prefix "disable" (lower s) = false -> s <> "" ->
                dict_lookup (request_line req) "ip" = Some (PStr s))
  /\ (logdna_ip_address o = None -> get_ipaddr sys <> "" ->
      dict_lookup (request_line req) "ip" = Some (PStr (get_ipaddr sys))).
Proof.
  intros H. apply handle_event_sent in H as [_ [exectime H]].
  destruct (request_line_entries _ _ _ _ _ _ _ _ _ H) as [Hip [Hmac _]].
  rewrite Hip, Hmac. unfold opt_truthy.
  cbn [set_options conf conf_ip_addr conf_mac_addr].
  rewrite !address_option_truthy.
  assert (Hne : forall s, s <> "" -> truthy (PStr s) = true).
  { intros s Hs. cbn. now destruct (String.eqb_spec s ""). }
  repeat split.
  - intros s -> ->. reflexivity.
  - intros s -> -> Hs. now rewrite (Hne s Hs).
  - intros ->. now rewrite (Hne _ (get_hwaddr_not_empty (getnode sys))).
  - intros s -> ->. reflexivity.
  - intros s -> -> Hs. now rewrite (Hne s Hs).
  - intros -> Hs. now rewrite (Hne _ Hs).
Qed.

Lemma address_keys_follow_options_witness :
  exists req,
    snd (@_handle_event scalar_builtins
           (set_options initial_callback tuned_options sample_system)
           sample_clock "OK" changed_result) = Ok (Some req)
    /\ dict_lookup (request_line req) "mac" = None
    /\ dict_lookup (request_line req) "ip" = Some (PStr "198.51.100.7").
Proof.
  eexists. split; [vm_compute; reflexivity |].
  pose proof (@address_keys_follow_options scalar_builtins initial_callback
                tuned_options sample_system sample_clock "OK" changed_result
                _ eq_refl) as [H1 [_ [_ [_ [H2 _]]]]].
  split.
  - exact (H1 "Disabled" eq_refl eq_refl).
  - apply (H2 "198.51.100.7" eq_refl eq_refl). discriminate.
Defined.

(** X4.  Every request is a POST with certificate validation and basic
    authentication forced, the ingestion key as user name, the JSON content
    type and the agent [ansible-callback/2.0]; it goes to the configured
    host and endpoint, [logs.logdna.com] and [/logs/ingest] when these are
    unset, with the configured timeout, 5 when that is unset or empty; its
    line carries the application name, [ansible] when unset. *)
Theorem request_envelope (B : Builtins) self o sys clock status result req :
  snd (_handle_event (set_options self o sys) clock status result)
  = Ok (Some req) ->
  method req = "POST"
  /\ validate_certs req = true
  /\ force_basic_auth req = true
  /\ url_username req = logdna_ingestion_key o
  /\ headers req = [("content-type", PStr "application/json; charset=UTF-8")]
  /\ http_agent req = "ansible-callback/2.0"
  /\ request_host req
     = Some (match logdna_host o with Some h => h | None => "logs.logdna.com" end)
  /\ request_endpoint req
     = Some (match logdna_endpoint o with
             | Some e => e
             | None => "/logs/ingest"
             end)
  /\ timeout req
     = (match logdna_timeout o with
        | Some s => if String.eqb s "" then PInt 5 else PStr s
        | None => PInt 5
        end)
  /\ dict_lookup (request_line req) "app"
     = Some (PStr (match logdna_appname o with
                   | Some a => a
                   | None => "ansible"
                   end)).
Proof.
  intros H. apply handle_event_sent in H as [_ [exectime H]].
  destruct (request_line_entries _ _ _ _ _ _ _ _ _ H) as [_ [_ [Happ _]]].
  destruct (send_logdna_ok _ _ _ _ _ _ _ _ _ H) as [self' [ts [line E]]].
  rewrite Happ. rewrite E.
  cbn [method validate_certs force_basic_auth url_username headers http_agent
       request_host request_endpoint timeout set_options conf conf_host
       conf_endpoint conf_timeout conf_ingestion_key conf_appname].
  repeat split.
  - now destruct (logdna_host o).
  - now destruct (logdna_endpoint o).
  - unfold opt_truthy. destruct (logdna_timeout o) as [s |]; cbn;
      [now destruct (String.eqb s "") | reflexivity].
  - now destruct (logdna_appname o).
Qed.

Lemma request_envelope_witness :
  exists req,
    snd (@_handle_event scalar_builtins
           (set_options initial_callback tuned_options sample_system)
           sample_clock "OK" changed_result) = Ok (Some req)
    /\ validate_certs req = true
    /\ request_host req = Some "logs.example.org"
    /\ request_endpoint req = Some "/logs/ingest"
    /\ timeout req = PStr "10".
Proof.
  eexists. split; [vm_compute; reflexivity |].
  pose proof (@request_envelope scalar_builtins initial_callback
                tuned_options sample_system sample_clock "OK" changed_result
                _ eq_refl) as [_ [H1 [_ [_ [_ [_ [H2 [H3 [H4 _]]]]]]]]].
  repeat split; assumption.
Defined.

(** X5.  The query of every request has [hostname] first and [now], the
    reading of [time()] taken by [send_logdna], second; [tags] follows, with
    the option as it is written, exactly when [logdna_tags] is set and not
    empty. *)
Theorem request_query (B : Builtins) self o sys clock status result req :
  snd (_handle_event (set_options self o sys) clock status result)
  = Ok (Some req) ->
  exists hostname,
    request_params req
    = [("hostname", hostname); ("now", PFloat (send_time clock))]
        ++ match logdna_tags o with
           | Some tags => if String.eqb tags "" then [] else [("tags", PStr tags)]
           | None => []
           end.
Proof.
  intros H. apply handle_event_sent in H as [_ [exectime H]].
  destruct (send_logdna_ok _ _ _ _ _ _ _ _ _ H) as [self' [ts [line ->]]].
  cbn [request_params set_options conf conf_tags]. eexists.
  unfold opt_truthy. destruct (logdna_tags o) as [tags |]; cbn;
    [destruct (String.eqb tags "") |]; reflexivity.
Qed.

Lemma request_query_witness :
  exists req,
    snd (@_handle_event scalar_builtins
           (set_options initial_callback tuned_options sample_system)
           sample_clock "OK" changed_result) = Ok (Some req)
    /\ dict_keys (request_params req) = ["hostname"; "now"; "tags"].
Proof.
  eexists. split; [vm_compute; reflexivity |].
  destruct (@request_query scalar_builtins initial_callback tuned_options
              sample_system sample_clock "OK" changed_result _ eq_refl)
    as [hostname E].
  apply (f_equal dict_keys) in E. exact E.
Defined.

(** * The ignore-lists of the configuration *)

Lemma lower_append (a b : string) :
  lower (a ++ b) = (lower a ++ lower b)%string.
Proof. induction a as [| c a IH]; cbn; [reflexivity | now rewrite IH]. Qed.

Lemma lower_char_comma (c : ascii) :
  Ascii.eqb (lower_char c) "," = Ascii.eqb c ",".
Proof. destruct c as [[] [] [] [] [] [] [] []]; reflexivity. Qed.

Lemma split_comma_aux_lower (s : string) :
  forall cur,
    split_comma_aux (lower cur) (lower s)
    = map lower (split_comma_aux cur s).
Proof.
  induction s as [| c r IH]; intros cur; cbn [lower split_comma_aux map].
  - reflexivity.
  - rewrite lower_char_comma. destruct (Ascii.eqb c ",").
    + cbn [map]. f_equal. apply (IH "").
    + rewrite <- IH, lower_append. reflexivity.
Qed.

Lemma split_comma_lower (s : string) :
  split_comma (lower s) = map lower (split_comma s).
Proof. apply (split_comma_aux_lower s ""). Qed.

Lemma split_comma_aux_not_nil (s cur : string) : split_comma_aux cur s <> [].
Proof.
  revert cur. induction s as [| c r IH]; intros cur; cbn; [discriminate |].
  destruct (Ascii.eqb c ","); [discriminate | apply IH].
Qed.

Lemma split_comma_aux_join (s : string) :
  forall cur, String.concat "," (split_comma_aux cur s) = (cur ++ s)%string.
Proof.
  induction s as [| c r IH]; intros cur; cbn [split_comma_aux].
  - cbn. now rewrite append_nil_r_s.
  - destruct (Ascii.eqb_spec c ",") as [-> | _].
    + pose proof (split_comma_aux_not_nil r "") as Hne.
      pose proof (IH "") as Hj.
      destruct (split_comma_aux "" r) as [| x l]; [contradiction |].
      change (String.concat "," (cur :: x :: l))
        with (cur ++ "," ++ String.concat "," (x :: l))%string.
      rewrite Hj. reflexivity.
    + rewrite IH, append_assoc_s. reflexivity.
Qed.

Lemma mem_char_append (c : ascii) (a b : string) :
  mem_char c (a ++ b) = mem_char c a || mem_char c b.
Proof.
  unfold mem_char. induction a as [| x a IH]; cbn; [reflexivity |].
  now rewrite IH, orb_assoc.
Qed.

Lemma split_comma_aux_no_comma (s : string) :
  forall cur,
    mem_char "," cur = false ->
    Forall (fun x => mem_char "," x = false) (split_comma_aux cur s).
Proof.
  induction s as [| c r IH]; intros cur H; cbn [split_comma_aux].
  - now constructor.
  - destruct (Ascii.eqb c ",") eqn:E.
    + constructor; [exact H | now apply IH].
    + apply IH. rewrite mem_char_append, H. unfold mem_char.
      cbn [list_ascii_of_string existsb orb].
      rewrite Ascii.eqb_sym, E. reflexivity.
Qed.

Lemma ignore_list_set (names : string) (f : string -> string) :
  names <> "" -> ignore_list (Some names) f = split_comma (f names).
Proof.
  intros H. unfold ignore_list, opt_truthy. cbn.
  now destruct (String.eqb_spec names "").
Qed.

Lemma py_in_str (s : string) (l : list string) :
  py_in (OVal (PStr s)) l = true <-> In s l.
Proof.
  unfold py_in. rewrite existsb_exists. split.
  - intros [x [Hin Hx]]. cbn in Hx. apply String.eqb_eq in Hx. now subst.
  - intros H. exists s. split; [exact H | cbn; apply String.eqb_refl].
Qed.

(** X6.  The status names to ignore are compared without regard to letter
    case on both sides: when an entry of [logdna_ignore_status_names] and
    the status of the event are equal once lower-cased, the event is
    ignored, it changes nothing and nothing is sent. *)
Theorem status_names_ignore_case self o sys status result names entry :
  logdna_ignore_status_names o = Some names ->
  names <> "" ->
  In entry (split_comma names) ->
  lower entry = lower status ->
  ignored (set_options self o sys) status result = true
  /\ forall (B : Builtins) clock,
       _handle_event (set_options self o sys) clock status result
       = (set_options self o sys, Ok None).
Proof.
  intros Ho Hne Hin Hlow.
  assert (Hi : ignored (set_options self o sys) status result = true).
  { unfold ignored. cbn [set_options conf_ignore_statuses].
    rewrite Ho, (ignore_list_set names lower Hne), split_comma_lower.
    apply orb_true_iff. right. apply py_in_str. rewrite <- Hlow.
    now apply in_map. }
  split; [exact Hi |].
  intros B clock. now apply ignored_event_is_dropped.
Qed.

Lemma status_names_ignore_case_witness :
  ignored (set_options initial_callback ignore_status_options sample_system)
          "SKIPPED" changed_result = true.
Proof.
  exact (proj1 (status_names_ignore_case initial_callback
                  ignore_status_options sample_system "SKIPPED"
                  changed_result "Skipped,OK" "Skipped" eq_refl
                  ltac:(discriminate) (or_introl eq_refl) eq_refl)).
Defined.

(** X7.  An ignore-list is the option cut at its commas: joined with commas
    its entries give the option back (lower-cased for the status names), no
    entry holds a comma, and an option that is unset or empty gives the
    empty list. *)
Theorem ignore_lists_cut_at_commas self o sys :
  let cb := set_options self o sys in
  let cut (option : option string) (f : string -> string)
          (l : list string) :=
    match option with
    | None => l = []
    | Some names =>
        if String.eqb names "" then l = []
        else String.concat "," l = f names
             /\ Forall (fun x => mem_char "," x = false) l
    end in
  cut (logdna_ignore_status_names o) lower (conf_ignore_statuses cb)
  /\ cut (logdna_ignore_action_names o) (fun s => s) (conf_ignore_actions cb)
  /\ cut (conf_ignore_role_names o) (fun s => s) (conf_ignore_roles cb)
  /\ cut (conf_ignore_play_names o) (fun s => s) (conf_ignore_plays cb).
Proof.
  assert (H : forall option f,
             match option with
             | None => ignore_list option f = []
             | Some names =>
                 if String.eqb names "" then ignore_list option f = []
                 else String.concat "," (ignore_list option f) = f names
                      /\ Forall (fun x => mem_char "," x = false)
                                (ignore_list option f)
             end).
  { intros [names |] f; [| reflexivity].
    destruct (String.eqb_spec names "") as [-> | Hne]; [reflexivity |].
    rewrite (ignore_list_set names f Hne). unfold split_comma. split.
    - apply split_comma_aux_join.
    - now apply split_comma_aux_no_comma. }
  cbn zeta. cbn [set_options conf_ignore_statuses conf_ignore_actions
                 conf_ignore_roles conf_ignore_plays].
  repeat split; apply H.
Qed.

(** * Task timing *)

Lemma lookup_record_start_same d k t :
  lookup_start (record_start d k t) k = Some t.
Proof.
  induction d as [| [k' t'] d IH]; cbn.
  - now rewrite String.eqb_refl.
  - destruct (String.eqb k' k) eqn:E; cbn; rewrite E; auto.
Qed.

Lemma lookup_record_start_other d k t k' :
  k' <> k -> lookup_start (record_start d k t) k' = lookup_start d k'.
Proof.
  intros Hne. induction d as [| [k0 t0] d IH]; cbn.
  - destruct (String.eqb_spec k k'); [congruence | reflexivity].
  - destruct (String.eqb_spec k0 k) as [-> | _]; cbn.
    + destruct (String.eqb_spec k k'); [congruence | reflexivity].
    + now rewrite IH.
Qed.

(** X8.  Once the start of a task is recorded, by [v2_playbook_on_task_start]
    or [v2_playbook_on_handler_task_start], the timer of a result of that
    task answers the seconds between the recorded start and the clock, and
    the timers of the other tasks answer as before.  For a task whose start
    was never recorded the event, unless it is ignored, raises [KeyError] on
    the identifier of the task: nothing is sent and the plugin is left as it
    was. *)
Theorem execution_timer_reads_recorded_start self task t0 utcnow result :
  (_uuid (_task result) = _uuid task ->
   _execution_timer (v2_playbook_on_task_start self task t0) utcnow result
   = Ok (total_seconds (timedelta utcnow t0))
   /\ _execution_timer (v2_playbook_on_handler_task_start self task t0)
                       utcnow result
      = Ok (total_seconds (timedelta utcnow t0)))
  /\ (_uuid (_task result) <> _uuid task ->
      _execution_timer (v2_playbook_on_task_start self task t0) utcnow result
      = _execution_timer self utcnow result)
  /\ (forall (B : Builtins) clock status,
         lookup_start (start_datetimes self) (_uuid (_task result)) = None ->
         ignored self status result = false ->
         _handle_event self clock status result
         = (self, Err (KeyError (_uuid (_task result))))).
Proof.
  split; [| split].
  - intros E. unfold _execution_timer, v2_playbook_on_task_start,
      v2_playbook_on_handler_task_start.
    cbn [with_start start_datetimes].
    now rewrite E, lookup_record_start_same.
  - intros E. unfold _execution_timer, v2_playbook_on_task_start.
    cbn [with_start start_datetimes].
    now rewrite (lookup_record_start_other _ _ _ _ E).
  - intros B clock status Hl Hi. unfold _handle_event, _execution_timer.
    now rewrite Hi, Hl.
Qed.

Lemma execution_timer_reads_recorded_start_witness :
  _execution_timer
    (v2_playbook_on_task_start initial_callback (_task check_mode_result)
                               sample_start)
    sample_now check_mode_result
  = Ok 2.5%float
  /\ snd (@_handle_event scalar_builtins sample_callback sample_clock "OK"
            check_mode_result) = Err (KeyError "task-2").
Proof.
  pose proof (execution_timer_reads_recorded_start initial_callback
                (_task check_mode_result) sample_start sample_now
                check_mode_result) as [H1 _].
  pose proof (execution_timer_reads_recorded_start sample_callback
                (_task check_mode_result) sample_start sample_now
                check_mode_result) as [_ [_ H3]].
  split.
  - exact (proj1 (H1 eq_refl)).
  - now rewrite (H3 scalar_builtins sample_clock "OK" eq_refl eq_refl).
Defined.

(** * What the calls keep *)

Lemma kept_by_calls_refl self : kept_by_calls self self.
Proof. unfold kept_by_calls. repeat split; auto. Qed.

Lemma kept_by_calls_trans a b c :
  kept_by_calls a b -> kept_by_calls b c -> kept_by_calls a c.
Proof.
  unfold kept_by_calls.
  intros [A1 [A2 [A3 [A4 [A5 [A6 [A7 [A8 [A9 [A10 [A11 A12]]]]]]]]]]]
         [B1 [B2 [B3 [B4 [B5 [B6 [B7 [B8 [B9 [B10 [B11 B12]]]]]]]]]]].
  repeat split; try congruence; auto.
Qed.

Lemma send_logdna_endpoint (B : Builtins) self c t u state result exectime :
  let self' := fst (send_logdna self c t u state result exectime) in
  session self' = session self /\ host self' = host self
  /\ ip_address self' = ip_address self /\ user self' = user self
  /\ ansible_playbook self' = ansible_playbook self
  /\ (ansible_check_mode self = true -> ansible_check_mode self' = true).
Proof.
  cbn zeta. unfold send_logdna.
  destruct (dict_item (_task_fields result) "args") as [args | e];
    [| cbn; auto 10].
  destruct (py_get args "_ansible_check_mode") as [cm | e]; [| cbn; auto 10].
  destruct (py_get args "_ansible_version") as [ver | e];
    destruct (truthy cm); try destruct (truthy ver); cbn; auto 10.
Qed.

Lemma handle_event_keeps (B : Builtins) self clock status result :
  kept_by_calls self (fst (_handle_event self clock status result)).
Proof.
  unfold _handle_event.
  destruct (ignored self status result); cbn [negb];
    [apply kept_by_calls_refl |].
  destruct (_execution_timer self (timer_utcnow clock) result)
    as [exectime | e]; [| apply kept_by_calls_refl].
  pose proof (send_logdna_endpoint B (logdna_callback self) (conf self)
                (send_time clock) (send_utcnow clock) status result exectime)
    as H.
  destruct (send_logdna (logdna_callback self) (conf self) (send_time clock)
              (send_utcnow clock) status result exectime) as [endpoint sent].
  cbn [fst] in *. destruct H as [H1 [H2 [H3 [H4 [_ H6]]]]].
  unfold kept_by_calls. cbn. repeat split; auto.
Qed.

Lemma record_start_keeps d k t uuid :
  lookup_start d uuid <> None ->
  lookup_start (record_start d k t) uuid <> None.
Proof.
  destruct (String.eqb_spec uuid k) as [-> | Hne].
  - intros _. rewrite lookup_record_start_same. discriminate.
  - now rewrite (lookup_record_start_other d k t uuid Hne).
Qed.

Lemma dispatch_keeps (B : Builtins) self call :
  kept_by_calls self (fst (dispatch self call)).
Proof.
  destruct call; cbn [dispatch fst];
    try apply handle_event_keeps;
    unfold kept_by_calls; cbn; repeat split; auto;
    intros uuid; apply record_start_keeps.
Qed.

Lemma run_length (B : Builtins) (calls : list Callback) :
  forall self, List.length (snd (run self calls)) = List.length calls.
Proof.
  induction calls as [| call rest IH]; intros self; cbn [run]; auto.
  destruct (dispatch self call) as [self1 out].
  specialize (IH self1). destruct (run self1 rest) as [self2 outs].
  cbn in *. now rewrite IH.
Qed.

(** X9.  Whatever calls the engine makes, in whatever order and whether
    they raise or not, the plugin keeps its session identifier, the host,
    address and user of the runner, its configuration and its ignore-lists;
    the check-mode flag, once set, stays set; a task whose start was
    recorded stays recorded; and every call has its outcome. *)
Theorem run_keeps (B : Builtins) (calls : list Callback) :
  forall self,
    kept_by_calls self (fst (run self calls))
    /\ List.length (snd (run self calls)) = List.length calls.
Proof.
  intros self. split; [| apply run_length].
  revert self. induction calls as [| call rest IH]; intros self; cbn [run].
  - apply kept_by_calls_refl.
  - pose proof (dispatch_keeps B self call) as H.
    destruct (dispatch self call) as [self1 out]. cbn [fst] in H.
    specialize (IH self1). destruct (run self1 rest) as [self2 outs].
    cbn [fst] in *. eapply kept_by_calls_trans; eauto.
Qed.

(** * The sticky flags *)

Lemma send_logdna_sets_check_mode (B : Builtins) self c t u state result
    exectime args :
  dict_lookup (_task_fields result) "args" = Some (PDict args) ->
  truthy (dict_get args "_ansible_check_mode") = true ->
  ansible_check_mode (fst (send_logdna self c t u state result exectime))
  = true.
Proof.
  intros Ha Hc. unfold send_logdna, dict_item. rewrite Ha.
  cbn [py_get]. rewrite Hc.
  destruct (truthy (dict_get args "_ansible_version")); reflexivity.
Qed.

Lemma send_logdna_meta (B : Builtins) self c t u state result exectime req :
  snd (send_logdna self c t u state result exectime) = Ok req ->
  dict_lookup (request_line req) "meta"
  = Some (pruned_meta (fst (send_logdna self c t u state result exectime))
                      state result exectime).
Proof.
  unfold send_logdna.
  destruct (dict_item (_task_fields result) "args") as [args | e];
    [| discriminate].
  destruct (py_get args "_ansible_check_mode") as [cm | e]; [| discriminate].
  destruct (py_get args "_ansible_version") as [ver | e]; [| discriminate].
  cbn [snd fst]. unfold build_request.
  match goal with
  | |- context [timestamp_of ?r ?n] =>
      destruct (timestamp_of r n) as [ts | e]; [| discriminate]
  end.
  cbn [bind].
  match goal with
  | |- context [log_message ?c ?m ?r] =>
      destruct (log_message c m r) as [line | e]; [| discriminate]
  end.
  cbn [bind]. intros H. injection H as <-.
  unfold request_line.
  cbn [request_json dict_lookup String.eqb Ascii.eqb Bool.eqb].
  destruct (opt_truthy (conf_disable_loglevel c));
    destruct (opt_truthy (conf_ip_addr c));
    destruct (opt_truthy (conf_mac_addr c)); reflexivity.
Qed.

Lemma pruned_meta_check_mode self state result exectime :
  ansible_check_mode self = true ->
  py_get (pruned_meta self state result exectime) "ansible_check_mode"
  = Ok (PBool true).
Proof.
  intros H. unfold pruned_meta, build_meta.
  cbn [dict_set String.eqb Ascii.eqb Bool.eqb].
  cbn [delete_empty_values map]. rewrite H.
  cbn [filter snd truthy py_get].
  destruct (truthy (delete_empty_values (dict_get (_result result) "changed")));
    reflexivity.
Qed.

(** X10.  The check-mode flag is sticky.  An event whose task arguments
    carry a true [_ansible_check_mode] sets the flag of the plugin, whether
    the request is then made or an exception is raised on the way; and
    while the flag is set, the metadata of every request carries
    [ansible_check_mode = True], whatever the arguments of the task at
    hand. *)
Theorem check_mode_is_sticky (B : Builtins) self clock status result :
  (forall args,
      dict_lookup (_task_fields result) "args" = Some (PDict args) ->
      truthy (dict_get args "_ansible_check_mode") = true ->
      ignored self status result = false ->
      lookup_start (start_datetimes self) (_uuid (_task result)) <> None ->
      ansible_check_mode
        (logdna_callback (fst (_handle_event self clock status result)))
      = true)
  /\ (forall req,
         ansible_check_mode (logdna_callback self) = true ->
         snd (_handle_event self clock status result) = Ok (Some req) ->
         exists meta,
           dict_lookup (request_line req) "meta" = Some meta
           /\ py_get meta "ansible_check_mode" = Ok (PBool true)).
Proof.
  split.
  - intros args Ha Hc Hi Hs. unfold _handle_event, _execution_timer.
    rewrite Hi. cbn [negb].
    destruct (lookup_start (start_datetimes self) (_uuid (_task result)))
      as [t0 |]; [| contradiction].
    pose proof (send_logdna_sets_check_mode B (logdna_callback self)
                  (conf self) (send_time clock) (send_utcnow clock) status
                  result (total_seconds (timedelta (timer_utcnow clock) t0))
                  args Ha Hc) as H.
    destruct (send_logdna (logdna_callback self) (conf self) (send_time clock)
                (send_utcnow clock) status result
                (total_seconds (timedelta (timer_utcnow clock) t0)))
      as [endpoint sent].
    exact H.
  - intros req Hm H. apply handle_event_sent in H as [_ [exectime H]].
    eexists. split; [apply (send_logdna_meta _ _ _ _ _ _ _ _ _ H) |].
    apply pruned_meta_check_mode.
    now apply send_logdna_endpoint.
Qed.

Lemma check_mode_is_sticky_witness :
  ansible_check_mode
    (logdna_callback (fst (@run scalar_builtins sample_callback sample_run)))
  = true
  /\ ansible_check_mode
       (logdna_callback
          (fst (@_handle_event scalar_builtins
                  (v2_playbook_on_task_start sample_callback
                     (_task check_mode_result) sample_start)
                  sample_clock "OK" check_mode_result)))
     = true.
Proof.
  split; [vm_compute; reflexivity |].
  apply (proj1 (@check_mode_is_sticky scalar_builtins
                  (v2_playbook_on_task_start sample_callback
                     (_task check_mode_result) sample_start)
                  sample_clock "OK" check_mode_result)
           [("_ansible_check_mode", PBool true);
            ("_ansible_version", PStr "2.9.27")]);
    try reflexivity.
  vm_compute. discriminate.
Defined.

(** * The playbook *)

Lemma mem_char_cons (c a : ascii) (s : string) :
  mem_char c (String a s) = Ascii.eqb c a || mem_char c s.
Proof. reflexivity. Qed.

Lemma basename_no_slash (path : string) :
  mem_char "/" (basename path) = false.
Proof.
  induction path as [| c r IH]; cbn [basename]; [reflexivity |].
  destruct (mem_char "/" r) eqn:E; [exact IH |].
  destruct (Ascii.eqb c "/") eqn:Ec; [exact E |].
  now rewrite mem_char_cons, Ascii.eqb_sym, Ec, E.
Qed.

Lemma basename_of_file (file : string) :
  mem_char "/" file = false -> basename file = file.
Proof.
  destruct file as [| c r]; [reflexivity |].
  rewrite mem_char_cons. intros H. apply orb_false_elim in H as [Hc Hr].
  cbn [basename]. now rewrite Hr, Ascii.eqb_sym, Hc.
Qed.

Lemma basename_of_path (dir file : string) :
  mem_char "/" file = false ->
  basename (dir ++ "/" ++ file) = file.
Proof.
  intros H. induction dir as [| c d IH].
  - cbn [append basename]. now rewrite H.
  - change ((String c d ++ "/" ++ file)%string)
      with (String c (d ++ "/" ++ file)%string).
    cbn [basename]. rewrite mem_char_append.
    change (mem_char "/" ("/" ++ file)) with true.
    now rewrite orb_true_r.
Qed.

(** X11.  [v2_playbook_on_start] records the file name of the playbook: the
    text after the last slash of the path, which holds no slash; a path
    without slash is recorded as it is, and a later playbook replaces the
    earlier one.  The start times and the rest of the endpoint are left
    alone. *)
Theorem playbook_is_the_file_name self _file_name :
  let self' := v2_playbook_on_start self _file_name in
  mem_char "/" (ansible_playbook (logdna_callback self')) = false
  /\ (forall dir file,
         _file_name = (dir ++ "/" ++ file)%string ->
         mem_char "/" file = false ->
         ansible_playbook (logdna_callback self') = file)
  /\ (mem_char "/" _file_name = false ->
      ansible_playbook (logdna_callback self') = _file_name)
  /\ (forall other,
         ansible_playbook
           (logdna_callback (v2_playbook_on_start self' other))
         = ansible_playbook
             (logdna_callback (v2_playbook_on_start self other)))
  /\ start_datetimes self' = start_datetimes self
  /\ session (logdna_callback self') = session (logdna_callback self)
  /\ ansible_check_mode (logdna_callback self')
     = ansible_check_mode (logdna_callback self).
Proof.
  cbn zeta. unfold v2_playbook_on_start.
  cbn [with_endpoint logdna_callback set_ansible_playbook ansible_playbook
       start_datetimes session ansible_check_mode].
  repeat split.
  - apply basename_no_slash.
  - intros dir file -> H. now apply basename_of_path.
  - apply basename_of_file.
Qed.

Lemma playbook_is_the_file_name_witness :
  ansible_playbook
    (logdna_callback (v2_playbook_on_start sample_callback
                                           "/srv/plays/deploy.yml"))
  = "deploy.yml".
Proof.
  exact (proj1 (proj2 (playbook_is_the_file_name sample_callback
                         "/srv/plays/deploy.yml"))
           "/srv/plays" "deploy.yml" eq_refl eq_refl).
Defined.

(** * What a rendered template tells *)

Lemma digit_char_is_digit (n : N) : is_digit (digit_char (n mod 10)) = true.
Proof.
  assert (H : (n mod 10 < 10)%N) by (apply N.mod_lt; discriminate).
  remember (N.to_nat (n mod 10)) as k eqn:Ek.
  assert (Hd : (n mod 10)%N = N.of_nat k) by (subst k; now rewrite Stdlib.NArith.Nnat.N2Nat.id).
  assert (Hk : (k < 10)%nat) by lia.
  rewrite Hd.
  do 10 (destruct k as [| k]; [reflexivity |]). lia.
Qed.

Lemma digits_aux_all_digits (fuel : nat) :
  forall n acc,
    forallb is_digit (list_ascii_of_string acc) = true ->
    forallb is_digit (list_ascii_of_string (digits_aux 10 fuel n acc)) = true.
Proof.
  induction fuel as [| fuel IH]; intros n acc H; cbn [digits_aux]; auto.
  assert (H' : forallb is_digit
                 (list_ascii_of_string
                    (String (digit_char (n mod 10)) acc)) = true).
  { cbn [list_ascii_of_string forallb].
    now rewrite digit_char_is_digit, H. }
  destruct (n <? 10)%N; auto.
Qed.

Lemma digits_aux_not_empty (fuel : nat) :
  forall n acc, acc <> "" -> digits_aux 10 fuel n acc <> "".
Proof.
  induction fuel as [| fuel IH]; intros n acc H; cbn [digits_aux]; auto.
  destruct (n <? 10)%N; [discriminate | apply IH; discriminate].
Qed.

Lemma digits_isdigit (n : N) : isdigit (digits 10 n) = true.
Proof.
  unfold isdigit, digits. apply andb_true_iff. split.
  - apply negb_true_iff, String.eqb_neq. cbn [digits_aux].
    destruct (n <? 10)%N; [discriminate |].
    apply digits_aux_not_empty. discriminate.
  - now apply digits_aux_all_digits.
Qed.

Section RenderedFacts.
Context {B : Builtins}.

Lemma get_field_ok (name : string) (kwargs : PyDict) (obj : PyVal) :
  get_field name kwargs = Ok obj ->
  unsafe_name name = false /\ isdigit name = false
  /\ dict_lookup kwargs name = Some obj.
Proof.
  unfold get_field, get_value, dict_item.
  destruct (unsafe_name name); [discriminate |].
  destruct (isdigit name).
  - destruct (PY_SSIZE_T_MAX <? digits_value name)%N; discriminate.
  - destruct (dict_lookup kwargs name); [| discriminate].
    intros H. injection H as ->. auto.
Qed.

Lemma auto_number_keeps_names (s : string) (auto : AutoArg) name auto1 :
  auto_number s auto = Ok (name, auto1) -> isdigit name = false -> name = s.
Proof.
  unfold auto_number. destruct (String.eqb s "").
  - destruct auto as [n |]; [| discriminate].
    intros H Hd. injection H as <- _. now rewrite digits_isdigit in Hd.
  - destruct (isdigit s).
    + destruct auto as [n |]; [destruct (n =? 0)%N |]; try discriminate;
        intros H _; now injection H as <- _.
    + intros H _. now injection H as <- _.
Qed.

Lemma render_items_ok_fields expand kwargs (items : list Item) :
  forall acc auto r,
    render_items expand kwargs items acc auto = Ok r ->
    Forall (fun f => unsafe_name (field_name f) = false
                     /\ dict_lookup kwargs (field_name f) <> None)
           (fields_of items).
Proof.
  induction items as [| [lit [f |]] items IH]; intros acc auto r;
    cbn [render_items fields_of].
  - constructor.
  - destruct (auto_number (field_name f) auto) as [[name auto1] | e] eqn:Ea;
      [| discriminate].
    destruct (get_field name kwargs) as [obj | e] eqn:Eg; cbn [bind];
      [| discriminate].
    destruct (convert_field obj (conversion f)) as [obj' | e]; cbn [bind];
      [| discriminate].
    destruct (expand (format_spec f) auto1) as [[spec auto2] | e];
      [| discriminate].
    destruct (format_field obj' spec) as [text | e]; cbn [bind];
      [| discriminate].
    intros H. constructor; [| eapply IH; eauto].
    apply get_field_ok in Eg as [Hu [Hd Hl]].
    rewrite (auto_number_keeps_names _ _ _ _ Ea Hd) in *.
    split; [exact Hu | congruence].
  - apply IH.
Qed.

Lemma format_ok_fields fmt kwargs text :
  format fmt kwargs = Ok text ->
  snd (parse fmt) = None
  /\ Forall (fun f => unsafe_name (field_name f) = false
                      /\ dict_lookup kwargs (field_name f) <> None)
            (fields_of (fst (parse fmt))).
Proof.
  unfold format. cbn [_vformat].
  destruct (parse fmt) as [items syntax_error]. cbn [fst snd].
  match goal with
  | |- context [render_items ?expand kwargs items "" (AutoIndex 0)] =>
      destruct (render_items expand kwargs items "" (AutoIndex 0))
        as [[s a] | e] eqn:E; [| discriminate]
  end.
  destruct syntax_error; [discriminate |].
  intros _. split; [reflexivity |]. eapply render_items_ok_fields; eauto.
Qed.

Lemma dict_lookup_key (d : PyDict) (k : string) :
  dict_lookup d k <> None -> In k (dict_keys d).
Proof.
  unfold dict_keys. induction d as [| [k' v] d IH]; cbn; [congruence |].
  destruct (String.eqb_spec k' k); auto.
Qed.

End RenderedFacts.

(** X12.  A template is rendered only if it is well formed and every
    placeholder at its top level names a field that is passed, with no [.],
    [[] or [(] in it: in particular no empty and no numbered placeholder.
    So a request is made with a configured format only if all its
    placeholders are among [action], [changed], [host], [playbook], [role],
    [status] and [name]. *)
Theorem rendered_template_is_bound (B : Builtins) fmt :
  (forall kwargs text,
      format fmt kwargs = Ok text ->
      snd (parse fmt) = None
      /\ Forall (fun f => unsafe_name (field_name f) = false
                          /\ In (field_name f) (dict_keys kwargs))
                (fields_of (fst (parse fmt))))
  /\ (forall self clock status result req,
         conf_log_fmt (conf self) = Some fmt ->
         fmt <> "" ->
         snd (_handle_event self clock status result) = Ok (Some req) ->
         snd (parse fmt) = None
         /\ Forall (fun f => unsafe_name (field_name f) = false
                             /\ In (field_name f) fixed_fields)
                   (fields_of (fst (parse fmt)))).
Proof.
  assert (H1 : forall kwargs text,
             format fmt kwargs = Ok text ->
             snd (parse fmt) = None
             /\ Forall (fun f => unsafe_name (field_name f) = false
                                 /\ In (field_name f) (dict_keys kwargs))
                       (fields_of (fst (parse fmt)))).
  { intros kwargs text H. apply format_ok_fields in H as [Hs Hf].
    split; [exact Hs |]. eapply Forall_impl; [| exact Hf].
    intros f [Hu Hl]. split; [exact Hu | now apply dict_lookup_key]. }
  split; [exact H1 |].
  intros self clock status result req Hfmt Hne H.
  apply handle_event_sent in H as [_ [exectime H]].
  destruct (request_line_entries _ _ _ _ _ _ _ _ _ H)
    as [_ [_ [_ [self' [line [_ [Hl _]]]]]]].
  destruct (log_message_formats (conf self) self' status result exectime)
    as [kwargs [Hkeys E]].
  rewrite E in Hl. clear E.
  assert (Ht : opt_truthy (conf_log_fmt (conf self)) = true).
  { rewrite Hfmt. unfold opt_truthy. cbn.
    now destruct (String.eqb_spec fmt ""). }
  rewrite Ht, Hfmt in Hl.
  destruct (format fmt kwargs) as [text |] eqn:Ef; [| discriminate].
  rewrite <- Hkeys. eapply H1; eauto.
Qed.

Lemma rendered_template_is_bound_witness :
  Forall (fun f => unsafe_name (field_name f) = false
                   /\ In (field_name f) (dict_keys sample_kwargs))
         (fields_of (fst (parse "{status}: {name} on {host}"))).
Proof.
  exact (proj2 (proj1 (@rendered_template_is_bound scalar_builtins
                         "{status}: {name} on {host}")
                  sample_kwargs "OK: restart nginx on web01" eq_refl)).
Defined.

(** * Lookups in the pruned metadata *)

Lemma pruned_items_cons (k : string) (v : PyVal) (d : PyDict) :
  pruned_items ((k, v) :: d)
  = if truthy (delete_empty_values v)
    then (k, delete_empty_values v) :: pruned_items d
    else pruned_items d.
Proof. reflexivity. Qed.

Lemma pruned_items_no_key (d : PyDict) (k : string) :
  ~ In k (dict_keys d) -> dict_lookup (pruned_items d) k = None.
Proof.
  induction d as [| [k' v] d IH]; intros H; [reflexivity |].
  rewrite pruned_items_cons. cbn in H.
  assert (Hd : dict_lookup (pruned_items d) k = None) by (apply IH; tauto).
  destruct (truthy (delete_empty_values v)); [| exact Hd].
  cbn [dict_lookup]. destruct (String.eqb_spec k' k); [tauto | exact Hd].
Qed.

Lemma dict_get_pruned_items (d : PyDict) (k : string) (v : PyVal) :
  NoDup (dict_keys d) ->
  dict_lookup d k = Some v ->
  dict_get (pruned_items d) k = kept v.
Proof.
  unfold dict_get, kept. induction d as [| [k' x] d IH]; intros Hn Hl;
    [discriminate |].
  cbn in Hn. inversion Hn as [| ? ? Hk Hd]; subst.
  rewrite pruned_items_cons. cbn [dict_lookup] in Hl.
  destruct (String.eqb_spec k' k) as [-> | Hne].
  - injection Hl as ->.
    destruct (truthy (delete_empty_values v)).
    + cbn [dict_lookup]. now rewrite String.eqb_refl.
    + now rewrite (pruned_items_no_key d k Hk).
  - destruct (truthy (delete_empty_values x)); [| now apply IH].
    cbn [dict_lookup]. destruct (String.eqb_spec k' k); [contradiction |].
    now apply IH.
Qed.

Lemma build_meta_keys self state result exectime :
  dict_keys (build_meta self state result exectime)
  = ["ansible_changed"; "ansible_check_mode"; "ansible_host";
     "ansible_playbook"; "ansible_result"; "ansible_role"; "ansible_session";
     "ansible_status"; "ansible_task"; "ansible_version";
     "ansible_execution_time"; "system_host"; "system_ip"; "system_user";
     "uuid"].
Proof. reflexivity. Qed.

Lemma build_meta_NoDup self state result exectime :
  NoDup (dict_keys (build_meta self state result exectime)).
Proof.
  rewrite build_meta_keys.
  repeat (constructor; [cbn; intuition discriminate |]). constructor.
Qed.

(** X13.  Looking a key up after pruning finds the pruned value of that key,
    or nothing when the pruned value is false: for a mapping with distinct
    keys, [get] after [delete_empty_values] answers the pruned value or
    [None], and a key the mapping does not have is not found either.  So it
    is for each of the fifteen keys of the metadata. *)
Theorem lookup_after_pruning :
  (forall d k,
      NoDup (dict_keys d) ->
      (forall v, dict_lookup d k = Some v ->
                 py_get (delete_empty_values (PDict d)) k = Ok (kept v))
      /\ (dict_lookup d k = None ->
          py_get (delete_empty_values (PDict d)) k = Ok PNone))
  /\ (forall self state result exectime,
         NoDup (dict_keys (build_meta self state result exectime))
         /\ py_get (pruned_meta self state result exectime) "ansible_status"
            = Ok (kept (PStr state))
         /\ py_get (pruned_meta self state result exectime) "ansible_result"
            = Ok (kept (PDict (_result result)))).
Proof.
  assert (H1 : forall d' k' v, NoDup (dict_keys d') ->
                               dict_lookup d' k' = Some v ->
                               py_get (delete_empty_values (PDict d')) k'
                               = Ok (kept v)).
  { intros d' k' v Hn' Hl.
    change (delete_empty_values (PDict d')) with (PDict (pruned_items d')).
    cbn [py_get]. now rewrite (dict_get_pruned_items d' k' v Hn' Hl). }
  split.
  - intros d k Hn. split; [intros v; now apply H1 |].
    intros Hl.
    change (delete_empty_values (PDict d)) with (PDict (pruned_items d)).
    cbn [py_get]. unfold dict_get. rewrite pruned_items_no_key; auto.
    intros Hin. unfold dict_keys in Hin. apply in_map_iff in Hin
      as [[k' v] [E Hin]]. cbn in E. subst k'.
    clear Hn H1. induction d as [| [k0 v0] d IH]; [destruct Hin |].
    cbn [dict_lookup] in Hl. destruct (String.eqb_spec k0 k) as [-> | Hne];
      [discriminate |].
    destruct Hin as [E | Hin]; [congruence | auto].
  - intros self state result exectime.
    split; [apply build_meta_NoDup |].
    split; apply H1; try apply build_meta_NoDup; reflexivity.
Qed.

Lemma lookup_after_pruning_witness :
  py_get (delete_empty_values
            (PDict [("changed", PBool false); ("rc", PInt 0);
                    ("stdout", PStr "ok"); ("warnings", PList [PStr ""])]))
         "stdout" = Ok (PStr "ok").
Proof.
  exact (proj1 (proj1 lookup_after_pruning
                  [("changed", PBool false); ("rc", PInt 0);
                   ("stdout", PStr "ok"); ("warnings", PList [PStr ""])]
                  "stdout"
                  ltac:(repeat (constructor; [cbn; intuition discriminate |]);
                        constructor))
           (PStr "ok") eq_refl).
Defined.

(** * The fields of the log line *)

Lemma dict_lookup_pruned_items (d : PyDict) (k : string) (v : PyVal) :
  NoDup (dict_keys d) ->
  dict_lookup d k = Some v ->
  dict_lookup (pruned_items d) k
  = if truthy (delete_empty_values v) then Some (delete_empty_values v)
    else None.
Proof.
  induction d as [| [k' x] d IH]; intros Hn Hl; [discriminate |].
  cbn in Hn. inversion Hn as [| ? ? Hk Hd]; subst.
  rewrite pruned_items_cons. cbn [dict_lookup] in Hl.
  destruct (String.eqb_spec k' k) as [-> | Hne].
  - injection Hl as ->.
    destruct (truthy (delete_empty_values v)).
    + cbn [dict_lookup]. now rewrite String.eqb_refl.
    + now apply pruned_items_no_key.
  - destruct (truthy (delete_empty_values x)); [| now apply IH].
    cbn [dict_lookup]. destruct (String.eqb_spec k' k); [contradiction |].
    now apply IH.
Qed.

Lemma pruned_meta_get self state result exectime (k : string) (v : PyVal) :
  dict_lookup (build_meta self state result exectime) k = Some v ->
  py_get (pruned_meta self state result exectime) k = Ok (kept v).
Proof.
  intros H. unfold pruned_meta.
  change (delete_empty_values (PDict (build_meta self state result exectime)))
    with (PDict (pruned_items (build_meta self state result exectime))).
  cbn [py_get].
  now rewrite (dict_get_pruned_items _ k v (build_meta_NoDup _ _ _ _) H).
Qed.

Lemma pruned_meta_task_action self state result exectime :
  (ansible_task <- py_get_default (pruned_meta self state result exectime)
                                  "ansible_task" (PDict []) ;;
   py_get ansible_task "action")
  = Ok (dict_get (pruned_items (_task_fields result)) "action").
Proof.
  unfold pruned_meta.
  change (delete_empty_values (PDict (build_meta self state result exectime)))
    with (PDict (pruned_items (build_meta self state result exectime))).
  cbn [py_get_default bind].
  rewrite (dict_lookup_pruned_items _ "ansible_task"
             (PDict (_task_fields result)) (build_meta_NoDup _ _ _ _)
             eq_refl).
  change (delete_empty_values (PDict (_task_fields result)))
    with (PDict (pruned_items (_task_fields result))).
  cbn [truthy].
  destruct (pruned_items (_task_fields result)); reflexivity.
Qed.

Lemma log_message_fields (B : Builtins) c self state result exectime :
  log_message c (pruned_meta self state result exectime) result
  = (text <- format
               (if opt_truthy (conf_log_fmt c)
                then match conf_log_fmt c with
                     | Some f => f
                     | None => ""
                     end
                else default_log_fmt)
               (log_fields self state result) ;;
     Ok (strip text)).
Proof.
  unfold log_message.
  pose proof (pruned_meta_task_action self state result exectime) as Ha.
  destruct (py_get_default (pruned_meta self state result exectime)
                           "ansible_task" (PDict [])) as [task | e];
    cbn [bind] in Ha |- *; [| discriminate].
  rewrite Ha. cbn [bind].
  rewrite (pruned_meta_get self state result exectime "ansible_changed" _
             eq_refl).
  rewrite (pruned_meta_get self state result exectime "ansible_host" _
             eq_refl).
  rewrite (pruned_meta_get self state result exectime "ansible_playbook" _
             eq_refl).
  rewrite (pruned_meta_get self state result exectime "ansible_role" _
             eq_refl).
  rewrite (pruned_meta_get self state result exectime "ansible_status" _
             eq_refl).
  cbn [bind]. reflexivity.
Qed.

Lemma kept_false (v : PyVal) :
  truthy (delete_empty_values v) = false -> kept v = PNone.
Proof. unfold kept. cbn zeta. now intros ->. Qed.

Lemma kept_str (s : string) : s <> "" -> kept (PStr s) = PStr s.
Proof.
  intros H. unfold kept. cbn. now destruct (String.eqb_spec s "").
Qed.

(** X14.  The log line is the template rendered on seven fields read after
    the pruning, and stripped.  A [changed] that is [False], zero or
    missing reaches the formatter as [None], not as [False]; so does the
    role of a task without role and an empty status or playbook name; a
    true [changed], a named role and a status that is not empty reach it as
    they are, and a missing or empty task name as the empty string. *)
Theorem formatter_fields (B : Builtins) c self state result exectime :
  let fields := log_fields self state result in
  log_message c (pruned_meta self state result exectime) result
  = (text <- format
               (if opt_truthy (conf_log_fmt c)
                then match conf_log_fmt c with
                     | Some f => f
                     | None => ""
                     end
                else default_log_fmt) fields ;;
     Ok (strip text))
  /\ dict_keys fields = fixed_fields
  /\ (is_false_or_zero (dict_get (_result result) "changed") = true
      \/ dict_lookup (_result result) "changed" = None ->
      dict_get fields "changed" = PNone)
  /\ (dict_get (_result result) "changed" = PBool true ->
      dict_get fields "changed" = PBool true)
  /\ (_role (_task result) = None -> dict_get fields "role" = PNone)
  /\ (forall r, _role (_task result) = Some r -> role_name r <> "" ->
                dict_get fields "role" = PStr (role_name r))
  /\ (state <> "" -> dict_get fields "status" = PStr state)
  /\ (state = "" -> dict_get fields "status" = PNone)
  /\ (ansible_playbook self = "" -> dict_get fields "playbook" = PNone)
  /\ (truthy (dict_get (_task_fields result) "name") = false ->
      dict_get fields "name" = PStr "").
Proof.
  cbn zeta. split; [apply log_message_fields |].
  unfold log_fields, dict_get at 1 3 5 6 7 8 9 10.
  cbn [dict_keys map fst dict_lookup String.eqb Ascii.eqb Bool.eqb].
  repeat split.
  - intros [H | H].
    + apply kept_false. now apply false_or_zero_pruned.
    + unfold dict_get. now rewrite H.
  - now intros ->.
  - now intros ->.
  - intros r -> Hr. now apply kept_str.
  - apply kept_str.
  - now intros ->.
  - now intros ->.
  - now intros ->.
Qed.

Lemma formatter_fields_witness :
  dict_get (log_fields sample_endpoint "OK" unchanged_result) "changed"
  = PNone
  /\ dict_get (log_fields sample_endpoint "OK" changed_result) "changed"
     = PBool true.
Proof.
  pose proof (formatter_fields scalar_builtins
                (conf sample_callback) sample_endpoint "OK" unchanged_result
                2.5%float) as [_ [_ [H1 _]]].
  pose proof (formatter_fields scalar_builtins
                (conf sample_callback) sample_endpoint "OK" changed_result
                2.5%float) as [_ [_ [_ [H2 _]]]].
  split; [exact (H1 (or_introl eq_refl)) | exact (H2 eq_refl)].
Defined.

(** * The default template *)

Lemma parse_default_log_fmt :
  parse default_log_fmt
  = ([("status=", Some {| field_name := "status"; format_spec := "";
                          conversion := None |});
      (" action=", Some {| field_name := "action"; format_spec := "";
                           conversion := None |});
      (" changed=", Some {| field_name := "changed"; format_spec := "";
                            conversion := None |});
      (" play=", Some {| field_name := "playbook"; format_spec := "";
                         conversion := None |});
      (" role=", Some {| field_name := "role"; format_spec := "";
                         conversion := None |});
      (" host=", Some {| field_name := "host"; format_spec := "";
                         conversion := None |});
      (" name=", Some {| field_name := "name"; format_spec := "";
                         conversion := None |})], None).
Proof. vm_compute. reflexivity. Qed.


(** A placeholder [{name}] bound to [v] adds the text of [v]. *)
Lemma render_items_plain_field (B : Builtins) expand kwargs lit name rest acc
    auto v text :
  String.eqb name "" = false -> isdigit name = false ->
  unsafe_name name = false ->
  dict_lookup kwargs name = Some v ->
  expand "" auto = Ok ("", auto) ->
  py_format v "" = Ok text ->
  render_items expand kwargs
    ((lit, Some {| field_name := name; format_spec := "";
                   conversion := None |}) :: rest) acc auto
  = render_items expand kwargs rest (acc ++ lit ++ text)%string auto.
Proof.
  intros H0 Hd Hu Hl He Hf. cbn [render_items field_name format_spec conversion].
  unfold auto_number. rewrite H0, Hd.
  unfold get_field, get_value, dict_item. rewrite Hu, Hd, Hl.
  cbn [bind convert_field]. rewrite He. unfold format_field. rewrite Hf.
  reflexivity.
Qed.

Lemma format_default (B : Builtins) (a c h p r s n : PyVal) :
  (forall v, py_format v "" = Ok (py_str v)) ->
  format default_log_fmt
         [("action", a); ("changed", c); ("host", h); ("playbook", p);
          ("role", r); ("status", s); ("name", n)]
  = Ok (default_line
          [("action", a); ("changed", c); ("host", h); ("playbook", p);
           ("role", r); ("status", s); ("name", n)]).
Proof.
  intros Hfmt. unfold format. rewrite vformat_step, parse_default_log_fmt.
  do 7 (erewrite render_items_plain_field;
        [| reflexivity | reflexivity | reflexivity | reflexivity
         | reflexivity | apply Hfmt]).
  cbn [render_items]. unfold default_line, dict_get.
  cbn [dict_lookup String.eqb Ascii.eqb Bool.eqb].
  rewrite !append_assoc_s. reflexivity.
Qed.

Lemma send_logdna_line (B : Builtins) self c t u state result exectime req :
  snd (send_logdna self c t u state result exectime) = Ok req ->
  exists line,
    dict_lookup (request_line req) "line" = Some (PStr line)
    /\ log_message c
         (pruned_meta (fst (send_logdna self c t u state result exectime))
                      state result exectime) result
       = Ok line.
Proof.
  unfold send_logdna.
  destruct (dict_item (_task_fields result) "args") as [args | e];
    [| discriminate].
  destruct (py_get args "_ansible_check_mode") as [cm | e]; [| discriminate].
  destruct (py_get args "_ansible_version") as [ver | e]; [| discriminate].
  cbn [snd fst]. unfold build_request.
  match goal with
  | |- context [timestamp_of ?r ?n] =>
      destruct (timestamp_of r n) as [ts | e]; [| discriminate]
  end.
  cbn [bind].
  match goal with
  | |- context [log_message ?c ?m ?r] =>
      destruct (log_message c m r) as [line | e] eqn:El; [| discriminate]
  end.
  cbn [bind]. intros H. injection H as <-. exists line.
  split; [| reflexivity].
  unfold request_line.
  cbn [request_json dict_lookup String.eqb Ascii.eqb Bool.eqb].
  destruct (opt_truthy (conf_disable_loglevel c));
    destruct (opt_truthy (conf_ip_addr c));
    destruct (opt_truthy (conf_mac_addr c)); reflexivity.
Qed.

Lemma log_fields_playbook a b state result :
  ansible_playbook a = ansible_playbook b ->
  log_fields a state result = log_fields b state result.
Proof. unfold log_fields. now intros ->. Qed.

(** X15.  Without a configured format (unset or empty) the formatter never
    raises: the line is [status=.. action=.. changed=.. play=.. role=..
    host=.. name=..] with the text of each field, stripped, provided
    [format(v, '')] is [str(v)]; and this is the line of the request. *)
Theorem default_template_line (B : Builtins) :
  (forall v, py_format v "" = Ok (py_str v)) ->
  (forall c self state result exectime,
      opt_truthy (conf_log_fmt c) = false ->
      log_message c (pruned_meta self state result exectime) result
      = Ok (strip (default_line (log_fields self state result))))
  /\ (forall self clock status result req,
         opt_truthy (conf_log_fmt (conf self)) = false ->
         snd (_handle_event self clock status result) = Ok (Some req) ->
         dict_lookup (request_line req) "line"
         = Some (PStr (strip (default_line
                                (log_fields (logdna_callback self) status
                                            result))))).
Proof.
  intros Hfmt.
  assert (H1 : forall c self state result exectime,
             opt_truthy (conf_log_fmt c) = false ->
             log_message c (pruned_meta self state result exectime) result
             = Ok (strip (default_line (log_fields self state result)))).
  { intros c self state result exectime Hc.
    rewrite log_message_fields, Hc. unfold log_fields.
    now rewrite (format_default B _ _ _ _ _ _ _ Hfmt). }
  split; [exact H1 |].
  intros self clock status result req Hc H.
  apply handle_event_sent in H as [_ [exectime H]].
  destruct (send_logdna_line _ _ _ _ _ _ _ _ _ H) as [line [Hl Hm]].
  rewrite (H1 _ _ _ _ _ Hc) in Hm. injection Hm as <-. rewrite Hl.
  do 3 f_equal. f_equal. apply log_fields_playbook.
  apply (send_logdna_endpoint B).
Qed.

Lemma default_template_line_witness :
  @log_message scalar_builtins (conf sample_callback)
     (pruned_meta sample_endpoint "OK" unchanged_result 2.5) unchanged_result
  = Ok "status=OK action=shell changed=None play=site.yml role=nginx host=web01 name=restart nginx".
Proof.
  exact (proj1 (@default_template_line scalar_builtins (fun v => eq_refl))
           (conf sample_callback) sample_endpoint "OK" unchanged_result
           2.5%float eq_refl).
Defined.

(** * The line is stripped *)

Lemma lstrip_first (s : string) (c : ascii) :
  first_char (lstrip s) = Some c -> is_space c = false.
Proof.
  induction s as [| a r IH]; cbn [lstrip]; [discriminate |].
  destruct (is_space a) eqn:E; [exact IH |].
  cbn. intros H. now injection H as <-.
Qed.

Lemma rstrip_last (s : string) (c : ascii) :
  last_char (rstrip s) = Some c -> is_space c = false.
Proof.
  induction s as [| a r IH]; cbn [rstrip]; [discriminate |].
  destruct (rstrip r) as [| b r'] eqn:E.
  - destruct (is_space a) eqn:Ea; [discriminate |].
    cbn. intros H. now injection H as <-.
  - exact IH.
Qed.

Lemma rstrip_first (a : ascii) (r : string) :
  is_space a = false -> first_char (rstrip (String a r)) = Some a.
Proof.
  intros H. cbn [rstrip]. destruct (rstrip r); [now rewrite H | reflexivity].
Qed.

Lemma lstrip_fix (s : string) :
  (forall c, first_char s = Some c -> is_space c = false) -> lstrip s = s.
Proof.
  destruct s as [| a r]; [reflexivity |].
  intros H. cbn [lstrip]. now rewrite (H a eq_refl).
Qed.

Lemma rstrip_fix (s : string) :
  (forall c, last_char s = Some c -> is_space c = false) -> rstrip s = s.
Proof.
  induction s as [| a r IH]; [reflexivity |].
  intros H. cbn [rstrip]. destruct r as [| b r'].
  - cbn. now rewrite (H a eq_refl).
  - rewrite IH; [reflexivity |]. intros c Hc. apply H. exact Hc.
Qed.

Lemma strip_first (s : string) (c : ascii) :
  first_char (strip s) = Some c -> is_space c = false.
Proof.
  unfold strip. pose proof (lstrip_first s) as H.
  destruct (lstrip s) as [| a r]; [discriminate |].
  specialize (H a eq_refl). rewrite (rstrip_first a r H).
  intros E. now injection E as <-.
Qed.

Lemma strip_idempotent (s : string) : strip (strip s) = strip s.
Proof.
  unfold strip at 1. rewrite (lstrip_fix (strip s) (strip_first s)).
  apply rstrip_fix. unfold strip. apply rstrip_last.
Qed.

(** X16.  The line of every request is stripped: it neither starts nor ends
    with white space, and stripping it again changes nothing. *)
Theorem line_is_stripped (B : Builtins) self clock status result req :
  snd (_handle_event self clock status result) = Ok (Some req) ->
  exists line,
    dict_lookup (request_line req) "line" = Some (PStr line)
    /\ strip line = line
    /\ (forall c, first_char line = Some c -> is_space c = false)
    /\ (forall c, last_char line = Some c -> is_space c = false).
Proof.
  intros H. apply handle_event_sent in H as [_ [exectime H]].
  destruct (send_logdna_line _ _ _ _ _ _ _ _ _ H) as [line [Hl Hm]].
  exists line. split; [exact Hl |].
  rewrite log_message_fields in Hm.
  match type of Hm with
  | context [format ?f ?k] => destruct (format f k) as [text | e]
  end; cbn [bind] in Hm; [| discriminate].
  injection Hm as <-. split; [apply strip_idempotent |].
  split; [apply strip_first | unfold strip; apply rstrip_last].
Qed.

Lemma line_is_stripped_witness :
  exists line,
    @log_message scalar_builtins
       (conf (set_options initial_callback
                (format_options "  {status} on {host}	") sample_system))
       (pruned_meta sample_endpoint "OK" changed_result 2.5) changed_result
    = Ok line
    /\ line = "OK on web01".
Proof.
  destruct (@line_is_stripped scalar_builtins
              (set_options initial_callback
                 (format_options "  {status} on {host}	") sample_system)
              sample_clock "OK" changed_result _ eq_refl)
    as [line [Hl _]].
  exists line. vm_compute in Hl. injection Hl as <-.
  split; vm_compute; reflexivity.
Defined.

(** * Literal text in a template *)

Lemma scan_literal_escape (s : string) :
  scan_literal (escape s)
  = match scan_literal s with
    | (t, None) => (t, None)
    | (t, Some (c, r)) => (t, Some (c, String c (escape r)))
    end.
Proof.
  induction s as [| c r IH]; [reflexivity |].
  cbn [escape scan_literal].
  destruct (Ascii.eqb c "{" || Ascii.eqb c "}") eqn:E.
  - cbn [scan_literal]. now rewrite E.
  - cbn [scan_literal]. rewrite E, IH.
    now destruct (scan_literal r) as [t [[c' r'] |]].
Qed.

Lemma scan_literal_text (s : string) :
  match scan_literal s with
  | (t, None) => s = t
  | (t, Some (c, r)) => s = (t ++ String c r)%string
  end.
Proof.
  induction s as [| c r IH]; [reflexivity |].
  cbn [scan_literal]. destruct (Ascii.eqb c "{" || Ascii.eqb c "}").
  - reflexivity.
  - destruct (scan_literal r) as [t [[c' r'] |]]; cbn; now rewrite IH at 1.
Qed.

Lemma escape_not_empty (s : string) : s <> "" -> escape s <> "".
Proof.
  destruct s as [| c r]; [contradiction |]. intros _. cbn [escape].
  destruct (Ascii.eqb c "{" || Ascii.eqb c "}"); discriminate.
Qed.

Lemma markup_next_escape (s : string) :
  s <> "" ->
  markup_next (escape s)
  = match scan_literal s with
    | (t, None) => Ok (Some ((t, None), ""))
    | (t, Some (c, r)) =>
        Ok (Some (((t ++ String c "")%string, None), escape r))
    end.
Proof.
  intros Hne. pose proof (escape_not_empty s Hne) as He.
  unfold markup_next. destruct (escape s) as [| a e] eqn:Ee;
    [contradiction |].
  rewrite <- Ee, scan_literal_escape.
  destruct (scan_literal s) as [t [[c r] |]]; [| reflexivity].
  rewrite Ascii.eqb_refl.
  destruct (Ascii.eqb c "}"); reflexivity.
Qed.

Lemma parse_aux_escape (fuel : nat) :
  forall s,
    (String.length (escape s) < fuel)%nat ->
    exists items,
      parse_aux fuel (escape s) = (items, None)
      /\ fields_of items = [] /\ literal_text items = s.
Proof.
  induction fuel as [| fuel IH]; intros s Hlen; [lia |].
  destruct s as [| a s'] eqn:Es.
  - exists []. now cbn.
  - rewrite <- Es in *. assert (Hne : s <> "") by (subst; discriminate).
    cbn [parse_aux]. pose proof (markup_next_escape s Hne) as Hm.
    pose proof (scan_literal_text s) as Ht.
    destruct (scan_literal s) as [t [[c r] |]]; rewrite Hm.
    + pose proof (markup_next_length _ _ _ Hm) as Hr.
      destruct (IH r ltac:(lia)) as [items [Hp [Hf Hl]]].
      rewrite Hp. eexists. split; [reflexivity |].
      cbn [fields_of literal_text]. split; [exact Hf |].
      now rewrite Hl, append_assoc_s, Ht.
    + exists [(t, None)].
      destruct fuel; cbn; rewrite append_nil_r_s; auto.
Qed.

Lemma render_items_literal (B : Builtins) expand kwargs (items : list Item) :
  fields_of items = [] ->
  forall acc auto,
    render_items expand kwargs items acc auto
    = Ok ((acc ++ literal_text items)%string, auto).
Proof.
  induction items as [| [lit [f |]] items IH]; intros Hf acc auto;
    cbn [render_items literal_text].
  - now rewrite append_nil_r_s.
  - discriminate Hf.
  - rewrite (IH Hf). now rewrite append_assoc_s.
Qed.

Lemma escape_plain (s : string) :
  mem_char "{" s = false -> mem_char "}" s = false -> escape s = s.
Proof.
  induction s as [| c r IH]; [reflexivity |].
  rewrite !mem_char_cons. intros H1 H2.
  apply orb_false_elim in H1 as [H1 H1'].
  apply orb_false_elim in H2 as [H2 H2'].
  cbn [escape]. rewrite (Ascii.eqb_sym c "{"), (Ascii.eqb_sym c "}"), H1, H2.
  cbn [orb]. now rewrite IH.
Qed.

(** X17.  Literal text goes through the formatter unchanged once its braces
    are doubled: for every text, the template made of the text with [{{]
    for [{] and [}}] for [}] is rendered as the text itself, whatever the
    fields; a template without braces is rendered as it stands, and as the
    log format it gives the stripped text as the line. *)
Theorem escaped_text_is_rendered_literally (B : Builtins) (s : string)
    (kwargs : PyDict) :
  format (escape s) kwargs = Ok s
  /\ (mem_char "{" s = false -> mem_char "}" s = false ->
      format s kwargs = Ok s)
  /\ (forall c self state result exectime,
         s <> "" ->
         conf_log_fmt c = Some (escape s) ->
         log_message c (pruned_meta self state result exectime) result
         = Ok (strip s)).
Proof.
  assert (H : forall kw, format (escape s) kw = Ok s).
  { intros kw. unfold format. rewrite vformat_step.
    destruct (parse_aux_escape (S (String.length (escape s))) s
                ltac:(lia)) as [items [Hp [Hf Hl]]].
    unfold parse. rewrite Hp, (render_items_literal B _ kw items Hf).
    now rewrite Hl. }
  split; [apply H | split].
  - intros H1 H2. rewrite <- (escape_plain s H1 H2) at 1. apply H.
  - intros c self state result exectime Hne Hc.
    rewrite log_message_fields, Hc.
    assert (Ht : opt_truthy (Some (escape s)) = true).
    { unfold opt_truthy. cbn.
      destruct (String.eqb_spec (escape s) ""); [| reflexivity].
      now apply escape_not_empty in Hne. }
    now rewrite Ht, H.
Qed.

Lemma escaped_text_is_rendered_literally_witness :
  @format scalar_builtins "deploy finished" sample_kwargs
  = Ok "deploy finished".
Proof.
  exact (proj1 (proj2 (@escaped_text_is_rendered_literally scalar_builtins
                         "deploy finished" sample_kwargs))
           eq_refl eq_refl).
Defined.

(** * The current time as text *)

Lemma two_digits_ok (n : N) : (n < 100)%N -> padded_ok 2 n = true.
Proof.
  intros H.
  assert (Hall : forallb (fun k => padded_ok 2 (N.of_nat k)) (seq 0 100)
                 = true) by (vm_compute; reflexivity).
  rewrite forallb_forall in Hall.
  rewrite <- (Stdlib.NArith.Nnat.N2Nat.id n). apply Hall.
  apply in_seq. lia.
Qed.

Lemma four_digits_ok (n : N) :
  (1000 <= n)%N -> (n <= 9999)%N -> padded_ok 4 n = true.
Proof.
  intros H1 H2.
  assert (Hall : forallb (fun k => padded_ok 4 (N.of_nat k)) (seq (10 * 100) (90 * 100))
                 = true) by (vm_compute; reflexivity).
  rewrite forallb_forall in Hall.
  rewrite <- (Stdlib.NArith.Nnat.N2Nat.id n). apply Hall.
  apply in_seq. lia.
Qed.

Lemma padded_two (n : N) :
  padded_ok 2 n = true ->
  exists a b,
    zero_pad 2 (digits 10 n) = String a (String b "")
    /\ digits_value (String a (String b "")) = n.
Proof.
  unfold padded_ok. cbn zeta. intros H.
  apply andb_prop in H as [H _]. apply andb_prop in H as [Hl Hv].
  apply Nat.eqb_eq in Hl. apply N.eqb_eq in Hv.
  destruct (zero_pad 2 (digits 10 n)) as [| a [| b [| c r]]];
    try discriminate Hl.
  eauto.
Qed.

Lemma padded_four (n : N) :
  padded_ok 4 n = true ->
  exists a b c d,
    zero_pad 4 (digits 10 n) = String a (String b (String c (String d "")))
    /\ digits_value (String a (String b (String c (String d "")))) = n.
Proof.
  unfold padded_ok. cbn zeta. intros H.
  apply andb_prop in H as [H _]. apply andb_prop in H as [Hl Hv].
  apply Nat.eqb_eq in Hl. apply N.eqb_eq in Hv.
  destruct (zero_pad 4 (digits 10 n)) as [| a [| b [| c [| d [| e r]]]]];
    try discriminate Hl.
  eauto 6.
Qed.

(** X18.  For a date with a four-digit year the current time is written in
    twenty characters, [YYYY-MM-DDTHH:MM:SSZ]: the separators stand at
    their places and the six numbers read back from between them are the
    year, month, day, hour, minute and second. *)
Theorem iso_now_reads_back (t : datetime) :
  (1000 <= year t)%N -> (year t <= 9999)%N ->
  (month t < 100)%N -> (day t < 100)%N -> (hour t < 100)%N ->
  (minute t < 100)%N -> (second t < 100)%N ->
  let s := strftime_iso t in
  String.length s = 20
  /\ substring 4 1 s = "-" /\ substring 7 1 s = "-"
  /\ substring 10 1 s = "T" /\ substring 13 1 s = ":"
  /\ substring 16 1 s = ":" /\ substring 19 1 s = "Z"
  /\ digits_value (substring 0 4 s) = year t
  /\ digits_value (substring 5 2 s) = month t
  /\ digits_value (substring 8 2 s) = day t
  /\ digits_value (substring 11 2 s) = hour t
  /\ digits_value (substring 14 2 s) = minute t
  /\ digits_value (substring 17 2 s) = second t.
Proof.
  intros Hy1 Hy2 Hmo Hd Hh Hmi Hs. cbn zeta. unfold strftime_iso.
  destruct (padded_four _ (four_digits_ok _ Hy1 Hy2))
    as [y1 [y2 [y3 [y4 [-> Ey]]]]].
  destruct (padded_two _ (two_digits_ok _ Hmo)) as [m1 [m2 [-> Em]]].
  destruct (padded_two _ (two_digits_ok _ Hd)) as [d1 [d2 [-> Ed]]].
  destruct (padded_two _ (two_digits_ok _ Hh)) as [h1 [h2 [-> Eh]]].
  destruct (padded_two _ (two_digits_ok _ Hmi)) as [i1 [i2 [-> Ei]]].
  destruct (padded_two _ (two_digits_ok _ Hs)) as [s1 [s2 [-> Es]]].
  cbn [append String.length substring].
  repeat split; assumption.
Qed.

Lemma iso_now_reads_back_witness :
  String.length (strftime_iso sample_now) = 20
  /\ digits_value (substring 0 4 (strftime_iso sample_now)) = 2021%N.
Proof.
  pose proof (iso_now_reads_back sample_now) as H.
  cbn zeta in H.
  destruct H as [H1 [_ [_ [_ [_ [_ [_ [H2 _]]]]]]]];
    try (vm_compute; first [reflexivity | discriminate]).
  split; [exact H1 | exact H2].
Defined.

(** * What the pruning keeps *)

Lemma pruned_items_keys_incl (d : PyDict) (k : string) :
  In k (dict_keys (pruned_items d)) -> In k (dict_keys d).
Proof.
  induction d as [| [k' v] d IH]; [auto |].
  rewrite pruned_items_cons.
  destruct (truthy (delete_empty_values v)); cbn; tauto.
Qed.

Lemma delete_empty_values_scalar (v : PyVal) :
  is_scalar v = true -> delete_empty_values v = v.
Proof. now destruct v. Qed.

Lemma pruned_items_keep (d : PyDict) (k : string) (v : PyVal) :
  In (k, v) d -> truthy (delete_empty_values v) = true ->
  In (k, delete_empty_values v) (pruned_items d).
Proof.
  induction d as [| [k' x] d IH]; [contradiction |].
  intros [E | Hin] Ht; rewrite pruned_items_cons.
  - injection E as -> ->. rewrite Ht. now left.
  - destruct (truthy (delete_empty_values x)); [right |]; auto.
Qed.

(** X19.  The pruning adds nothing and loses nothing that is true: every
    key of the pruned mapping is a key of the mapping; an item whose pruned
    value is true is kept with that pruned value, so a true number, a
    [True] and a non-empty string stay as they are, in a mapping as in a
    sequence; and the keys of the metadata are always among its fifteen
    names. *)
Theorem pruning_keeps_what_is_true :
  (forall d k, has_key (delete_empty_values (PDict d)) k = true ->
               In k (dict_keys d))
  /\ (forall d k v,
         In (k, v) d -> truthy (delete_empty_values v) = true ->
         In (k, delete_empty_values v) (pruned_items d))
  /\ (forall d k v,
         In (k, v) d -> is_scalar v = true -> truthy v = true ->
         In (k, v) (pruned_items d))
  /\ (forall l v,
         In v l -> is_scalar v = true -> truthy v = true ->
         exists l', delete_empty_values (PList l) = PList l' /\ In v l')
  /\ (forall self state result exectime k,
         has_key (pruned_meta self state result exectime) k = true ->
         In k ["ansible_changed"; "ansible_check_mode"; "ansible_host";
               "ansible_playbook"; "ansible_result"; "ansible_role";
               "ansible_session"; "ansible_status"; "ansible_task";
               "ansible_version"; "ansible_execution_time"; "system_host";
               "system_ip"; "system_user"; "uuid"]).
Proof.
  assert (Hkey : forall d k,
             has_key (delete_empty_values (PDict d)) k = true ->
             In k (dict_keys d)).
  { intros d k H.
    change (delete_empty_values (PDict d)) with (PDict (pruned_items d)) in H.
    cbn [has_key] in H. apply existsb_exists in H as [x [Hin Hx]].
    apply String.eqb_eq in Hx. subst x. now apply pruned_items_keys_incl. }
  split; [exact Hkey |]. split; [exact pruned_items_keep |]. split; [| split].
  - intros d k v Hin Hs Ht.
    rewrite <- (delete_empty_values_scalar v Hs).
    apply pruned_items_keep; [exact Hin |].
    now rewrite (delete_empty_values_scalar v Hs).
  - intros l v Hin Hs Ht. eexists. split; [reflexivity |].
    apply filter_In. split; [| exact Ht].
    rewrite <- (delete_empty_values_scalar v Hs). now apply in_map.
  - intros self state result exectime k H.
    rewrite <- (build_meta_keys self state result exectime).
    now apply Hkey.
Qed.

Lemma pruning_keeps_what_is_true_witness :
  In ("rc", PInt 2)
     (pruned_items [("changed", PBool false); ("rc", PInt 2);
                    ("stderr", PStr "")]).
Proof.
  exact (proj1 (proj2 (proj2 pruning_keeps_what_is_true))
           [("changed", PBool false); ("rc", PInt 2); ("stderr", PStr "")]
           "rc" (PInt 2) (or_intror (or_introl eq_refl)) eq_refl eq_refl).
Defined.

(** * The four callbacks of a result *)

Lemma dict_lookup_pruned_true (d : PyDict) (k : string) (v : PyVal) :
  NoDup (dict_keys d) ->
  dict_lookup d k = Some v ->
  truthy (delete_empty_values v) = true ->
  dict_lookup (pruned_items d) k = Some (delete_empty_values v).
Proof.
  induction d as [| [k' x] d IH]; intros Hn Hl Ht; [discriminate |].
  cbn in Hn. inversion Hn as [| ? ? Hk Hd]; subst.
  rewrite pruned_items_cons. cbn [dict_lookup] in Hl.
  destruct (String.eqb_spec k' k) as [-> | Hne].
  - injection Hl as ->. rewrite Ht. cbn [dict_lookup].
    now rewrite String.eqb_refl.
  - destruct (truthy (delete_empty_values x)); [| now apply IH].
    cbn [dict_lookup]. destruct (String.eqb_spec k' k); [contradiction |].
    now apply IH.
Qed.

Lemma handle_event_status (B : Builtins) self clock status result req :
  status <> "" ->
  snd (_handle_event self clock status result) = Ok (Some req) ->
  request_status req = Some (PStr status)
  /\ request_level req
     = (if opt_truthy (conf_disable_loglevel (conf self)) then None
        else Some (PStr (loglevel status))).
Proof.
  intros Hne H. apply handle_event_sent in H as [_ [exectime H]]. split.
  - unfold request_status. rewrite (send_logdna_meta _ _ _ _ _ _ _ _ _ H).
    unfold pruned_meta.
    match goal with
    | |- context [delete_empty_values (PDict (build_meta ?s ?st ?r ?e))] =>
        change (delete_empty_values (PDict (build_meta s st r e)))
          with (PDict (pruned_items (build_meta s st r e)));
        cbv iota;
        apply (dict_lookup_pruned_true _ "ansible_status" (PStr status)
                 (build_meta_NoDup s st r e))
    end.
    + reflexivity.
    + destruct status; [contradiction | reflexivity].
  - destruct (send_logdna_ok _ _ _ _ _ _ _ _ _ H) as [self' [ts [line ->]]].
    unfold request_level, request_line.
    cbn [request_json dict_lookup String.eqb Ascii.eqb Bool.eqb].
    destruct (opt_truthy (conf_disable_loglevel (conf self)));
      destruct (opt_truthy (conf_ip_addr (conf self)));
      destruct (opt_truthy (conf_mac_addr (conf self))); reflexivity.
Qed.

(** X20.  Each of the four callbacks of a task result reports its own
    status: what [v2_runner_on_ok] delivers carries the status [OK] in its
    metadata, and the level [INFO] on its line unless levels are disabled;
    [v2_runner_on_failed] delivers [FAILED] and [ERROR],
    [v2_runner_on_skipped] [SKIPPED] and [WARN], and
    [v2_runner_on_unreachable] [UNREACHABLE] and [WARN].  The pruning never
    removes the status. *)
Theorem callbacks_report_their_status (B : Builtins) self clock result :
  let level l :=
    if opt_truthy (conf_disable_loglevel (conf self)) then None
    else Some (PStr l) in
  (forall req, snd (v2_runner_on_ok self clock result) = Ok (Some req) ->
     request_status req = Some (PStr "OK")
     /\ request_level req = level "INFO")
  /\ (forall req,
        snd (v2_runner_on_failed self clock result) = Ok (Some req) ->
        request_status req = Some (PStr "FAILED")
        /\ request_level req = level "ERROR")
  /\ (forall req,
        snd (v2_runner_on_skipped self clock result) = Ok (Some req) ->
        request_status req = Some (PStr "SKIPPED")
        /\ request_level req = level "WARN")
  /\ (forall req,
        snd (v2_runner_on_unreachable self clock result) = Ok (Some req) ->
        request_status req = Some (PStr "UNREACHABLE")
        /\ request_level req = level "WARN").
Proof.
  cbv zeta.
  repeat split; intros;
    match goal with
    | H : snd (_ self clock result) = Ok (Some ?req) |- _ =>
        apply handle_event_status in H; [| discriminate];
        destruct H as [Hs Hl]
    end; assumption.
Qed.

Lemma callbacks_report_their_status_witness :
  exists req,
    snd (@v2_runner_on_failed scalar_builtins sample_callback sample_clock
           (sample_result [("rc", PInt 2)])) = Ok (Some req)
    /\ request_status req = Some (PStr "FAILED")
    /\ request_level req = Some (PStr "ERROR").
Proof.
  eexists. split; [vm_compute; reflexivity |].
  apply (proj1 (proj2 (@callbacks_report_their_status scalar_builtins
                         sample_callback sample_clock
                         (sample_result [("rc", PInt 2)])))).
  vm_compute. reflexivity.
Defined.
